(** * Legal document simplifier: the document-to-LLM orchestration layer

    A shallow embedding of [backend/legal_simplifier.py] (the class
    [LegalDocumentSimplifier]) and of the route handlers of
    [backend/api.py] that drive it, followed by the properties of the
    specification that these definitions satisfy or refute.

    Conventions of the embedding.
    - A Python [str] is a [string]; its characters are the code points
      below 256, so [len] is [String.length] and [s[:n]] keeps the first
      [n] characters.
    - A Python exception is the value [Raise e], where [e] is the text
      [str(e)] that the handlers of the source print or return.
    - The object [simplifier] is a record that every method receives and
      returns; the Groq client it owns answers a request from an oracle
      and remembers the requests it was sent. *)

From Stdlib Require Import ZArith QArith Bool Ascii String List Lia.
From stdpp Require Import base option gmap strings.
Import ListNotations.

Local Open Scope string_scope.
Set Warnings "-register-all".

(** ** Python strings *)

Module Py.

(** The double quote, written by its code so that literals stay plain. *)
Definition dq : string := String "034"%char "".

(** [str.isspace] on code points below 256. *)
Definition is_space (c : ascii) : bool :=
  let n := nat_of_ascii c in
  (((9 <=? n) && (n <=? 13)) || ((28 <=? n) && (n <=? 32))
   || (n =? 133) || (n =? 160))%nat.

(** [str.lower] on code points below 256. *)
Definition lower_char (c : ascii) : ascii :=
  let n := nat_of_ascii c in
  if (((65 <=? n) && (n <=? 90))
      || ((192 <=? n) && (n <=? 222) && negb (n =? 215)))%nat
  then ascii_of_nat (n + 32) else c.

Fixpoint lower (s : string) : string :=
  match s with
  | "" => ""
  | String c s' => String (lower_char c) (lower s')
  end.

(** [s[:n]] for [n >= 0]. *)
Fixpoint slice_to (n : nat) (s : string) : string :=
  match n, s with
  | S k, String c s' => String c (slice_to k s')
  | _, _ => ""
  end.

(** [s[n:]] for [n >= 0]. *)
Fixpoint slice_from (n : nat) (s : string) : string :=
  match n, s with
  | S k, String _ s' => slice_from k s'
  | _, _ => s
  end.

(** [s.startswith(p)]. *)
Fixpoint startswith (p s : string) : bool :=
  match p, s with
  | "", _ => true
  | String a p', String b s' => Ascii.eqb a b && startswith p' s'
  | String _ _, "" => false
  end.

(** [sub in s]. *)
Fixpoint contains (sub s : string) : bool :=
  startswith sub s ||
  match s with
  | "" => false
  | String _ s' => contains sub s'
  end.

(** [s.partition(sep)] when [sep] occurs: the text before and the text
    after the leftmost occurrence. *)
Fixpoint cut (sep s : string) : option (string * string) :=
  if startswith sep s then Some ("", slice_from (String.length sep) s)
  else match s with
       | "" => None
       | String c s' =>
           match cut sep s' with
           | Some (a, b) => Some (String c a, b)
           | None => None
           end
       end.

(** [s.split(sep)] for a non-empty [sep]: every cut removes at least one
    character, so [String.length s] rounds are enough. *)
Fixpoint split_fuel (fuel : nat) (sep s : string) : list string :=
  match fuel with
  | O => [s]
  | S k =>
      match cut sep s with
      | None => [s]
      | Some (a, b) => a :: split_fuel k sep b
      end
  end.

Definition split (sep s : string) : list string :=
  split_fuel (String.length s) sep s.

(** [s.lstrip()], [s.rstrip()] and [s.strip()]. *)
Fixpoint lstrip (s : string) : string :=
  match s with
  | "" => ""
  | String c s' => if is_space c then lstrip s' else s
  end.

Fixpoint rstrip (s : string) : string :=
  match s with
  | "" => ""
  | String c s' =>
      match rstrip s' with
      | "" => if is_space c then "" else String c ""
      | r => String c r
      end
  end.

Definition strip (s : string) : string := rstrip (lstrip s).

(** [sep.join(parts)]. *)
Fixpoint join (sep : string) (parts : list string) : string :=
  match parts with
  | [] => ""
  | [p] => p
  | p :: rest => p +:+ sep +:+ join sep rest
  end.

(** [os.path.basename] and the two-argument [os.path.join] of POSIX. *)
Definition basename (p : string) : string :=
  List.last (split "/" p) "".

Fixpoint endswith_char (c : ascii) (s : string) : bool :=
  match s with
  | "" => false
  | String a "" => Ascii.eqb a c
  | String _ s' => endswith_char c s'
  end.

Definition path_join (a b : string) : string :=
  if startswith "/" b then b
  else if (String.length a =? 0)%nat || endswith_char "/" a then a +:+ b
  else a +:+ "/" +:+ b.

End Py.

(** ** Data model *)

(** A value produced by [json.loads]. *)
Inductive json : Type :=
  | JNull
  | JBool (b : bool)
  | JInt (n : Z)
  | JFloat (lexeme : string)
  | JStr (s : string)
  | JArr (items : list json)
  | JObj (fields : list (string * json)).

(** The outcome of an expression that may raise: its value, or the text
    [str(e)] of the exception. *)
Inductive exn (A : Type) : Type :=
  | Value (a : A)
  | Raise (e : string).
Arguments Value {A} a.
Arguments Raise {A} e.

(** One entry of a [messages] list: [{"role": ..., "content": ...}]. *)
Record message : Type := Message { role : string; content : string }.

(** The keyword arguments of [client.chat.completions.create]. *)
Record request : Type := Request {
  messages : list message;
  model : string;
  temperature : Q;
  max_tokens : Z
}.

(** The Groq client.  [completions k r] is what the service does with the
    request [r] when [k] requests were sent before it: the text
    [response.choices[0].message.content], or a failure.  [sent] is the
    list of requests sent so far, oldest first. *)
Record Groq : Type := {
  completions : nat -> request -> exn string;
  sent : list request
}.

(** A value of the dictionary [loaded_documents]. *)
Record document : Type := {
  text : string;
  path : string;
  loaded_at : string
}.

(** The fields of a [LegalDocumentSimplifier] instance. *)
Record simplifier : Type := {
  client : Groq;
  conversation_history : list message;
  loaded_documents : gmap string document;
  current_analysis : option string
}.

(** What lies outside the repository: the file readers, the clock, the
    JSON parser, and the helpers of werkzeug and of Python that the
    handlers call. *)
Record world : Type := {
  (** the text of every page of the PDF at a path, in order *)
  pdf_pages : string -> exn (list string);
  (** the text of every paragraph of the DOCX at a path, in order *)
  docx_paragraphs : string -> exn (list string);
  (** what [read()] returns for the file at a path, opened in text mode
      with the encoding utf-8 *)
  utf8_file : string -> exn string;
  (** [datetime.now().strftime("%Y-%m-%d %H:%M:%S")] *)
  clock : string;
  (** [json.loads] *)
  json_loads : string -> exn json;
  (** [werkzeug.utils.secure_filename] *)
  secure_filename : string -> string;
  (** [file.save(path)] of an uploaded file *)
  file_save : string -> exn unit;
  (** [str(v)] for a parsed JSON value that is not a string *)
  py_str : json -> string
}.

(** [__init__], once the API key is known to be set. *)
Definition new_simplifier (service : nat -> request -> exn string)
  : simplifier :=
  {| client := {| completions := service; sent := [] |};
     conversation_history := [];
     loaded_documents := ∅;
     current_analysis := None |}.

(** ** Methods as state transformers

    A method runs on the simplifier and leaves it changed, whether it
    returns or raises. *)

Definition M (A : Type) : Type := simplifier -> exn A * simplifier.

Definition ret {A} (a : A) : M A := fun s => (Value a, s).

Definition bind {A B} (m : M A) (k : A -> M B) : M B :=
  fun s =>
    match m s with
    | (Value a, s') => k a s'
    | (Raise e, s') => (Raise e, s')
    end.

Definition lift {A} (x : exn A) : M A := fun s => (x, s).

(** [try: body  except Exception as e: handler(str(e))]. *)
Definition try_except {A} (body : M A) (handler : string -> M A) : M A :=
  fun s =>
    match body s with
    | (Value a, s') => (Value a, s')
    | (Raise e, s') => handler e s'
    end.

Declare Scope py_scope.
Delimit Scope py_scope with py.
Notation "x <- m ;; k" := (bind m (fun x => k))
  (at level 100, m at next level, right associativity) : py_scope.
Notation "m ;;; k" := (bind m (fun _ => k))
  (at level 100, right associativity) : py_scope.
Local Open Scope py_scope.

(** What the service answers to [r] in the state [s], and the state once
    [r] was sent. *)
Definition answer (s : simplifier) (r : request) : exn string :=
  completions (client s) (List.length (sent (client s))) r.

Definition after_request (r : request) (s : simplifier) : simplifier :=
  {| client := {| completions := completions (client s);
                  sent := sent (client s) ++ [r] |};
     conversation_history := conversation_history s;
     loaded_documents := loaded_documents s;
     current_analysis := current_analysis s |}.

(** [self.client.chat.completions.create(...)] followed by
    [.choices[0].message.content]. *)
Definition create (r : request) : M string :=
  fun s => (answer s r, after_request r s).

(** [self.conversation_history.append(m)]. *)
Definition with_turn (m : message) (s : simplifier) : simplifier :=
  {| client := client s;
     conversation_history := conversation_history s ++ [m];
     loaded_documents := loaded_documents s;
     current_analysis := current_analysis s |}.

Definition append_history (m : message) : M unit :=
  fun s => (Value tt, with_turn m s).

(** [self.conversation_history = h]. *)
Definition set_history (h : list message) : M unit :=
  fun s =>
    (Value tt,
     {| client := client s;
        conversation_history := h;
        loaded_documents := loaded_documents s;
        current_analysis := current_analysis s |}).

(** [self.loaded_documents[name] = d]. *)
Definition store_document (name : string) (d : document) : M unit :=
  fun s =>
    (Value tt,
     {| client := client s;
        conversation_history := conversation_history s;
        loaded_documents := <[name := d]> (loaded_documents s);
        current_analysis := current_analysis s |}).

(** [self.current_analysis = a]. *)
Definition set_analysis (a : string) : M unit :=
  fun s =>
    (Value tt,
     {| client := client s;
        conversation_history := conversation_history s;
        loaded_documents := loaded_documents s;
        current_analysis := Some a |}).

(** [self.conversation_history] read as a whole. *)
Definition history : M (list message) :=
  fun s => (Value (conversation_history s), s).

(** [self.loaded_documents] read as a whole. *)
Definition documents : M (gmap string document) :=
  fun s => (Value (loaded_documents s), s).

(** Truth value of an optional string: [None] and [""] are false. *)
Definition truthy (x : option string) : bool :=
  match x with
  | Some (String _ _) => true
  | _ => false
  end.

(** [xs[i]] on a list, for [i >= 0]. *)
Definition index {A} (xs : list A) (i : nat) : exn A :=
  match nth_error xs i with
  | Some x => Value x
  | None => Raise "list index out of range"
  end.

Definition MODEL : string := "llama-3.3-70b-versatile".

(** ** [LegalDocumentSimplifier]: loading documents *)

Section Core.

Variable w : world.

Definition read_pdf (file_path : string) : M string :=
  try_except
    (pages <- lift (pdf_pages w file_path) ;;
     ret (fold_left (fun text page => text +:+ page) pages ""))
    (fun e => ret ("Error reading PDF: " +:+ e)).

Definition read_docx (file_path : string) : M string :=
  try_except
    (paragraphs <- lift (docx_paragraphs w file_path) ;;
     ret (Py.join (String "010" "") paragraphs))
    (fun e => ret ("Error reading DOCX: " +:+ e)).

Definition read_txt (file_path : string) : M string :=
  try_except
    (lift (utf8_file w file_path))
    (fun e => ret ("Error reading TXT: " +:+ e)).

Definition UNSUPPORTED : string :=
  "Unsupported file format. Please use PDF, DOCX, or TXT files.".

(** [if not doc_name: doc_name = os.path.basename(file_path)]: the key
    under which [load_document] stores a document. *)
Definition stored_name (file_path : string) (doc_name : option string)
  : string :=
  match doc_name with
  | Some (String c n) => String c n
  | _ => Py.basename file_path
  end.

(** The part of [load_document] that follows the choice of a reader. *)
Definition load_with (reader : string -> M string)
    (file_path : string) (doc_name : option string) : M string :=
  text <- reader file_path ;;
  let doc_name := stored_name file_path doc_name in
  store_document doc_name
    {| text := text; path := file_path; loaded_at := clock w |} ;;;
  ret text.

Definition load_document (file_path : string) (doc_name : option string)
  : M string :=
  let extension := List.last (Py.split "." (Py.lower file_path)) "" in
  if String.eqb extension "pdf" then load_with read_pdf file_path doc_name
  else if String.eqb extension "docx" then
    load_with read_docx file_path doc_name
  else if String.eqb extension "txt" then
    load_with read_txt file_path doc_name
  else ret UNSUPPORTED.

(** ** Prompts *)

Definition concerns_prompt_head : string :=
"You are a legal expert analyzing documents for potential concerns. " +:+ "

Analyze this legal document and identify concerning clauses or red flags. For each concerning clause:
1. Quote the clause (keep it brief)
2. Explain why it's concerning in simple terms
3. Rate the severity (LOW, MEDIUM, HIGH)

Return ONLY a JSON array with this exact structure:
[
  {
    " +:+ Py.dq +:+ "clause" +:+ Py.dq +:+ ": " +:+ Py.dq +:+ "brief quote of concerning text" +:+ Py.dq +:+ ",
    " +:+ Py.dq +:+ "concern" +:+ Py.dq +:+ ": " +:+ Py.dq +:+ "explanation in plain language" +:+ Py.dq +:+ ",
    " +:+ Py.dq +:+ "severity" +:+ Py.dq +:+ ": " +:+ Py.dq +:+ "HIGH/MEDIUM/LOW" +:+ Py.dq +:+ ",
    " +:+ Py.dq +:+ "recommendation" +:+ Py.dq +:+ ": " +:+ Py.dq +:+ "what the reader should do" +:+ Py.dq +:+ "
  }
]

Legal Text:
".

Definition concerns_prompt_tail : string :=
"

Return ONLY valid JSON, no other text.".

Definition concerns_prompt (legal_text : string) : string :=
  concerns_prompt_head +:+ Py.slice_to 4000 legal_text
  +:+ concerns_prompt_tail.

Definition question_prompt_head : string :=
"You are a legal document simplifier. A user has provided this legal text and has a specific question about it.

Legal Text:
".

Definition question_prompt_tail (query : string) : string :=
"

User Question: " +:+ query +:+ "

Please answer their question in simple, plain language that anyone can understand. Avoid legal jargon and explain any complex terms you must use.".

Definition summary_prompt_head : string :=
"You are a legal document simplifier. Your job is to break down complex legal language into simple, easy-to-understand terms.

Please analyze this legal text and provide:
1. A brief summary (2-3 sentences)
2. Key points in plain language (numbered list)
3. Important dates or deadlines mentioned
4. Your obligations and rights

Legal Text:
".

Definition summary_prompt_tail : string :=
"

Remember to use everyday language that anyone can understand.".

Definition simplify_prompt (legal_text : string) (query : option string)
  : string :=
  match query with
  | Some q =>
      if truthy query then
        question_prompt_head +:+ Py.slice_to 3000 legal_text
        +:+ question_prompt_tail q
      else
        summary_prompt_head +:+ Py.slice_to 3000 legal_text
        +:+ summary_prompt_tail
  | None =>
      summary_prompt_head +:+ Py.slice_to 3000 legal_text
      +:+ summary_prompt_tail
  end.

Definition compare_prompt_head (doc1_name : string) : string :=
"Compare these two legal documents and provide:
1. Main differences between them
2. Which document is more favorable and why
3. Key clauses that differ
4. Recommendations on which is better

Document 1 (" +:+ doc1_name +:+ "):
".

Definition compare_prompt_middle (doc2_name : string) : string :=
"

Document 2 (" +:+ doc2_name +:+ "):
".

Definition compare_prompt_tail : string :=
"

Provide a clear, easy-to-understand comparison.".

Definition compare_prompt (doc1_name doc1_text doc2_name doc2_text : string)
  : string :=
  compare_prompt_head doc1_name +:+ doc1_text
  +:+ compare_prompt_middle doc2_name +:+ doc2_text
  +:+ compare_prompt_tail.

Definition context_prompt_head : string :=
"Document Context:
".

Definition context_prompt_tail (user_message : string) : string :=
"

User Question: " +:+ user_message.

Definition chat_prompt (user_message : string)
    (document_context : option string) : string :=
  match document_context with
  | Some d =>
      if truthy document_context then
        context_prompt_head +:+ Py.slice_to 2000 d
        +:+ context_prompt_tail user_message
      else user_message
  | None => user_message
  end.

(** ** Requests to the model *)

Definition concerns_request (legal_text : string) : request :=
  {| messages :=
       [ Message "system"
           "You are a legal expert who identifies concerning clauses. Return only valid JSON.";
         Message "user" (concerns_prompt legal_text) ];
     model := MODEL;
     temperature := 0.5;
     max_tokens := 2000 |}.

Definition simplify_request (legal_text : string) (query : option string)
  : request :=
  {| messages :=
       [ Message "system"
           "You are a helpful legal document simplifier. You break down complex legal jargon into plain, simple language that anyone can understand.";
         Message "user" (simplify_prompt legal_text query) ];
     model := MODEL;
     temperature := 0.7;
     max_tokens := 1500 |}.

Definition compare_request (doc1_name doc1_text doc2_name doc2_text : string)
  : request :=
  {| messages :=
       [ Message "system"
           "You are a legal expert who compares documents and explains differences clearly.";
         Message "user"
           (compare_prompt doc1_name doc1_text doc2_name doc2_text) ];
     model := MODEL;
     temperature := 0.7;
     max_tokens := 2000 |}.

Definition chat_request (history : list message) : request :=
  {| messages :=
       Message "system"
         "You are a legal document expert who explains things in simple terms. Be conversational, friendly, and avoid legal jargon."
       :: history;
     model := MODEL;
     temperature := 0.7;
     max_tokens := 1000 |}.

(** ** [LegalDocumentSimplifier]: the four tasks *)

(** Lines 126 to 132 of [highlight_concerning_clauses]: from the text of
    the response to the parsed value. *)
Definition parse_concerns (response_content : string) : exn json :=
  let result := Py.strip response_content in
  let fenced :=
    if Py.contains "```json" result then
      match index (Py.split "```json" result) 1 with
      | Value after =>
          match index (Py.split "```" after) 0 with
          | Value inside => Value (Py.strip inside)
          | Raise e => Raise e
          end
      | Raise e => Raise e
      end
    else if Py.contains "```" result then
      match index (Py.split "```" result) 1 with
      | Value after =>
          match index (Py.split "```" after) 0 with
          | Value inside => Value (Py.strip inside)
          | Raise e => Raise e
          end
      | Raise e => Raise e
      end
    else Value result in
  match fenced with
  | Value result => json_loads w result
  | Raise e => Raise e
  end.

Definition highlight_concerning_clauses (legal_text : string) : M json :=
  try_except
    (response_content <- create (concerns_request legal_text) ;;
     lift (parse_concerns response_content))
    (fun e => (* print(f"Error analyzing concerns: {str(e)}") *)
       ret (JArr [])).

Definition simplify_legal_text (legal_text : string) (query : option string)
  : M string :=
  try_except
    (create (simplify_request legal_text query))
    (fun e => ret ("Error calling API: " +:+ e)).

Definition NOT_LOADED : string :=
  "One or both documents not found. Please load them first.".

Definition compare_documents (doc1_name doc2_name : string) : M string :=
  docs <- documents ;;
  match docs !! doc1_name, docs !! doc2_name with
  | Some d1, Some d2 =>
      let doc1_text := Py.slice_to 3000 (text d1) in
      let doc2_text := Py.slice_to 3000 (text d2) in
      try_except
        (create (compare_request doc1_name doc1_text doc2_name doc2_text))
        (fun e => ret ("Error comparing documents: " +:+ e))
  | _, _ => ret NOT_LOADED
  end.

Definition chat (user_message : string) (document_context : option string)
  : M string :=
  let context_prompt := chat_prompt user_message document_context in
  append_history (Message "user" context_prompt) ;;;
  try_except
    (turns <- history ;;
     assistant_message <- create (chat_request turns) ;;
     append_history (Message "assistant" assistant_message) ;;;
     ret assistant_message)
    (fun e => ret ("Error: " +:+ e)).

End Core.

(** ** Route handlers of [api.py] *)

(** The JSON body of a reply; [error] carries the text under the key
    ['error'], every other body has ['success': True]. *)
Inductive payload : Type :=
  | error (e : string)
  | uploaded (doc_name : string) (length : nat)
  | analysed (analysis : string)
  | concerns_found (concerns : json)
  | compared (comparison : string)
  | replied (response : string)
  | cleared.

(** A reply and its HTTP status. *)
Definition reply : Type := payload * Z.

Definition ok (p : payload) : reply := (p, 200%Z).

Definition UPLOAD_FOLDER : string := "frontend/static/uploads".

Definition ALLOWED_EXTENSIONS : list string := ["pdf"; "docx"; "txt"].

(** [s.rsplit(sep, 1)]. *)
Definition rsplit1 (sep s : string) : list string :=
  match rev (Py.split sep s) with
  | [] => []
  | [whole] => [whole]
  | tail :: before => [Py.join sep (rev before); tail]
  end.

Definition allowed_file (filename : string) : bool :=
  Py.contains "." filename &&
  match index (rsplit1 "." filename) 1 with
  | Value ext => existsb (String.eqb (Py.lower ext)) ALLOWED_EXTENSIONS
  | Raise _ => false
  end.

(** The document a handler finds for the name it was given, when
    [doc_name and doc_name in simplifier.loaded_documents] holds. *)
Definition named_document (docs : gmap string document)
    (doc_name : option string) : option document :=
  match doc_name with
  | Some n => if truthy doc_name then docs !! n else None
  | None => None
  end.

(** [c[key]] and [for c in concerns] on parsed JSON values. *)
Definition subscript (c : json) (key : string) : exn json :=
  match c with
  | JObj fields =>
      match find (fun kv => String.eqb (fst kv) key) fields with
      | Some kv => Value (snd kv)
      | None => Raise ("'" +:+ key +:+ "'")
      end
  | JArr _ => Raise "list indices must be integers or slices, not str"
  | JStr _ => Raise "string indices must be integers, not 'str'"
  | JNull => Raise "'NoneType' object is not subscriptable"
  | JBool _ => Raise "'bool' object is not subscriptable"
  | JInt _ => Raise "'int' object is not subscriptable"
  | JFloat _ => Raise "'float' object is not subscriptable"
  end.

Definition iterate (j : json) : exn (list json) :=
  match j with
  | JArr items => Value items
  | JObj fields => Value (map (fun kv => JStr (fst kv)) fields)
  | JStr s => Value (map (fun c => JStr (String c "")) (list_ascii_of_string s))
  | JNull => Raise "'NoneType' object is not iterable"
  | JBool _ => Raise "'bool' object is not iterable"
  | JInt _ => Raise "'int' object is not iterable"
  | JFloat _ => Raise "'float' object is not iterable"
  end.

Section Api.

Variable w : world.

(** A value interpolated into an f-string. *)
Definition format (v : json) : string :=
  match v with
  | JStr s => s
  | _ => py_str w v
  end.

Definition concern_lines (c : json) : exn string :=
  match subscript c "severity" with
  | Raise e => Raise e
  | Value severity =>
  match subscript c "clause" with
  | Raise e => Raise e
  | Value clause =>
  match subscript c "concern" with
  | Raise e => Raise e
  | Value concern =>
  match subscript c "recommendation" with
  | Raise e => Raise e
  | Value recommendation =>
      Value ("[" +:+ format severity +:+ "] " +:+ format clause
             +:+ String "010" "Concern: " +:+ format concern
             +:+ String "010" "Recommendation: " +:+ format recommendation
             +:+ String "010" "")
  end end end end.

Fixpoint all_values {A B} (f : A -> exn B) (xs : list A) : exn (list B) :=
  match xs with
  | [] => Value []
  | x :: rest =>
      match f x with
      | Raise e => Raise e
      | Value y =>
          match all_values f rest with
          | Raise e => Raise e
          | Value ys => Value (y :: ys)
          end
      end
  end.

Definition concerns_report (concerns : json) : exn string :=
  match iterate concerns with
  | Raise e => Raise e
  | Value cs =>
      match all_values concern_lines cs with
      | Raise e => Raise e
      | Value blocks =>
          Value ("CONCERNING CLAUSES ANALYSIS" +:+ String "010" (String "010" "")
                 +:+ Py.join (String "010" "") blocks)
      end
  end.

(** [except Exception as e: return jsonify({'error': str(e)}), 500]. *)
Definition guarded (body : M reply) : M reply :=
  try_except body (fun e => ret (error e, 500%Z)).

Definition upload_document (file : option string) (doc_name : string)
  : M reply :=
  guarded
    match file with
    | None => ret (error "No file provided", 400%Z)
    | Some file_filename =>
        if String.eqb file_filename "" then
          ret (error "No file selected", 400%Z)
        else if negb (allowed_file file_filename) then
          ret (error "Invalid file type. Use PDF, DOCX, or TXT", 400%Z)
        else
          let filename := secure_filename w file_filename in
          let filepath := Py.path_join UPLOAD_FOLDER filename in
          lift (file_save w filepath) ;;;
          let name := if truthy (Some doc_name) then doc_name else filename in
          document_text <- load_document w filepath (Some name) ;;
          if Py.contains "Error" document_text then
            ret (error document_text, 500%Z)
          else
            ret (ok (uploaded name (String.length document_text)))
    end.

Definition analyze_document (doc_name : option string) : M reply :=
  guarded
    (docs <- documents ;;
     match named_document docs doc_name with
     | None => ret (error "Document not found", 404%Z)
     | Some d =>
         let document_text := text d in
         analysis <- simplify_legal_text document_text None ;;
         set_analysis analysis ;;;
         ret (ok (analysed analysis))
     end).

Definition get_concerns (doc_name : option string) : M reply :=
  guarded
    (docs <- documents ;;
     match named_document docs doc_name with
     | None => ret (error "Document not found", 404%Z)
     | Some d =>
         let document_text := text d in
         concerns <- highlight_concerning_clauses w document_text ;;
         report <- lift (concerns_report concerns) ;;
         set_analysis report ;;;
         ret (ok (concerns_found concerns))
     end).

(** [compare_documents] of [api.py]. *)
Definition api_compare_documents (doc1 doc2 : option string) : M reply :=
  guarded
    match doc1, doc2 with
    | Some d1, Some d2 =>
        if truthy doc1 && truthy doc2 then
          comparison <- compare_documents d1 d2 ;;
          set_analysis comparison ;;;
          ret (ok (compared comparison))
        else ret (error "Two documents required", 400%Z)
    | _, _ => ret (error "Two documents required", 400%Z)
    end.

(** [chat] of [api.py]. *)
Definition api_chat (message : string) (doc_name : option string)
  : M reply :=
  guarded
    (docs <- documents ;;
     let document_context :=
       match named_document docs doc_name with
       | Some d => Some (text d)
       | None => None
       end in
     response <- chat message document_context ;;
     ret (ok (replied response))).

Definition clear_conversation : M reply :=
  guarded (set_history [] ;;; ret (ok cleared)).

End Api.

(** ** The reading of the specification

    The words of the specification about fenced blocks, stated on their
    own so that the code can be compared with them. *)

(** [sep] occurs in [s] with [before] left of it and [rest] right of it,
    and nowhere further left. *)
Definition first_occurrence (sep s before rest : string) : Prop :=
  s = before +:+ sep +:+ rest /\
  forall before' rest',
    s = before' +:+ sep +:+ rest' ->
    String.length before <= String.length before'.

Definition FENCE : string := "```".
Definition JSON_FENCE : string := "```json".



(** The value the interpreter is to return for a region: what the parser
    makes of it, or the empty list when the parser fails. *)
Definition parsed_or_empty (w : world) (r : string) : json :=
  match json_loads w r with
  | Value v => v
  | Raise _ => JArr []
  end.


(** [s.split(sep)[0]]: the text before the first [sep], or the whole
    text. *)
Definition first_piece (sep s : string) : string :=
  match Py.cut sep s with
  | Some (a, _) => a
  | None => s
  end.

(** The text that the loader extracts from a well-formed file at
    [file_path], by the reader its extension selects. *)
Inductive extracted (w : world) (file_path : string) : string -> Prop :=
  | extracted_pdf pages :
      List.last (Py.split "." (Py.lower file_path)) "" = "pdf" ->
      pdf_pages w file_path = Value pages ->
      extracted w file_path (fold_left (fun t p => t +:+ p) pages "")
  | extracted_docx paragraphs :
      List.last (Py.split "." (Py.lower file_path)) "" = "docx" ->
      docx_paragraphs w file_path = Value paragraphs ->
      extracted w file_path (Py.join (String "010" "") paragraphs)
  | extracted_txt t :
      List.last (Py.split "." (Py.lower file_path)) "" = "txt" ->
      utf8_file w file_path = Value t ->
      extracted w file_path t.

(** A request made with the fixed model, the temperature [t] and the
    ceiling [k] on the tokens of the answer. *)
Definition uses (t : Q) (k : Z) (r : request) : Prop :=
  model r = "llama-3.3-70b-versatile" /\ temperature r = t
  /\ max_tokens r = k.

(** Between [s] and [s'] the client sent nothing but requests made with
    [t] and [k]. *)
Definition calls_with (t : Q) (k : Z) (s s' : simplifier) : Prop :=
  exists requests,
    sent (client s') = (sent (client s) ++ requests)%list
    /\ Forall (uses t k) requests.

(** A reply that reports a failure: its body is [{'error': ...}]. *)
Definition failed (r : reply) : bool :=
  match fst r with
  | error _ => true
  | _ => false
  end.

(** ** Sample surroundings

    A small world and two services on which the statements below are
    exercised. *)

Module Sample.

(** [json.loads] on the three texts the samples use. *)
Definition loads (t : string) : exn json :=
  if String.eqb t "[]" then Value (JArr [])
  else if String.eqb t "[1]" then Value (JArr [JInt 1])
  else Raise "Expecting value: line 1 column 1 (char 0)".

(** Every reader fails on [broken.pdf] and finds one line elsewhere. *)
Definition world : world :=
  {| pdf_pages := fun p =>
       if Py.contains "broken" p then Raise "EOF marker not found"
       else Value ["Tenant shall pay $500 monthly."];
     docx_paragraphs := fun _ => Value ["Tenant shall pay $500 monthly."];
     utf8_file := fun p =>
       if Py.contains "errors" p
       then Value "Errors and omissions excepted."
       else Value "Tenant shall pay $500 monthly.";
     clock := "2024-05-01 09:30:00";
     json_loads := loads;
     secure_filename := fun n => n;
     file_save := fun _ => Value tt;
     py_str := fun _ => "" |}.

(** A service that answers every request with the same text. *)
Definition says (t : string) : nat -> request -> exn string :=
  fun _ _ => Value t.

(** A service that fails on every request. *)
Definition down : nat -> request -> exn string :=
  fun _ _ => Raise "Connection error.".

(** A service that answers in turn. *)
Definition dialogue : nat -> request -> exn string :=
  fun k _ => match k with
             | 0 => Value "It is a lease."
             | _ => Value "Rent is due monthly."
             end.

(** A text of [n] letters. *)
Fixpoint letters (n : nat) : string :=
  match n with
  | 0 => ""
  | S k => String "a" (letters k)
  end.

(** A simplifier that holds two long documents. *)
Definition library : simplifier :=
  {| client := {| completions := says "They differ."; sent := [] |};
     conversation_history := [];
     loaded_documents :=
       <["a.txt" := {| text := letters 3001; path := "a.txt";
                       loaded_at := "2024-05-01 09:30:00" |}]>
       (<["b.txt" := {| text := letters 3500; path := "b.txt";
                        loaded_at := "2024-05-01 09:31:00" |}]> ∅);
     current_analysis := None |}.

(** The same simplifier behind a service that is down. *)
Definition offline : simplifier :=
  {| client := {| completions := down; sent := [] |};
     conversation_history := conversation_history library;
     loaded_documents := loaded_documents library;
     current_analysis := current_analysis library |}.

End Sample.

(** ** More of Python *)

Module PyMore.

(** [s.endswith(p)]. *)
Fixpoint endswith (p s : string) : bool :=
  String.eqb p s ||
  match s with
  | "" => false
  | String _ s' => endswith p s'
  end.

(** [s[:k]] for any integer [k]: a negative [k] counts from the end. *)
Definition slice_to_int (k : Z) (s : string) : string :=
  if (0 <=? k)%Z then Py.slice_to (Z.to_nat k) s
  else Py.slice_to (String.length s - Z.to_nat (- k)) s.

(** [xs[:k]] on a list, for any integer [k]. *)
Definition list_slice_to_int {A} (k : Z) (xs : list A) : list A :=
  if (0 <=? k)%Z then firstn (Z.to_nat k) xs
  else firstn (List.length xs - Z.to_nat (- k)) xs.

(** [s.split()]: the words between runs of blanks. *)
Fixpoint split_blank (s : string) : list string :=
  match s with
  | "" => []
  | String c s' =>
      if Py.is_space c then split_blank s'
      else match s' with
           | "" => [String c ""]
           | String d _ =>
               if Py.is_space d then String c "" :: split_blank s'
               else match split_blank s' with
                    | word :: rest => String c word :: rest
                    | [] => [String c ""]
                    end
           end
  end.

(** [re.sub(r'\s+', ' ', s)]: every run of blanks becomes one space. *)
Fixpoint squeeze_blanks (s : string) : string :=
  match s with
  | "" => ""
  | String c s' =>
      if Py.is_space c then
        match s' with
        | "" => " "
        | String d _ =>
            if Py.is_space d then squeeze_blanks s'
            else String " " (squeeze_blanks s')
        end
      else String c (squeeze_blanks s')
  end.

(** [re.sub(r'\n+', '\n', s)]: every run of line breaks becomes one. *)
Fixpoint squeeze_newlines (s : string) : string :=
  match s with
  | "" => ""
  | String c s' =>
      if Ascii.eqb c "010" then
        match s' with
        | "" => String "010" ""
        | String d _ =>
            if Ascii.eqb d "010" then squeeze_newlines s'
            else String "010" (squeeze_newlines s')
        end
      else String c (squeeze_newlines s')
  end.

(** The characters that [\w] matches, among the code points below 256:
    letters, digits and numerals, and the underscore. *)
Definition is_word (c : ascii) : bool :=
  let n := nat_of_ascii c in
  (((48 <=? n) && (n <=? 57)) || ((65 <=? n) && (n <=? 90)) || (n =? 95)
   || ((97 <=? n) && (n <=? 122)) || (n =? 170) || (n =? 178) || (n =? 179)
   || (n =? 181) || (n =? 185) || (n =? 186)
   || ((188 <=? n) && (n <=? 190)) || ((192 <=? n) && (n <=? 214))
   || ((216 <=? n) && (n <=? 246)) || ((248 <=? n) && (n <=? 255)))%nat.

(** The characters of [s] that satisfy [keep], in order. *)
Fixpoint keep_chars (keep : ascii -> bool) (s : string) : string :=
  match s with
  | "" => ""
  | String c s' =>
      if keep c then String c (keep_chars keep s') else keep_chars keep s'
  end.

(** [s.replace(a, b)] for single characters [a] and [b]. *)
Fixpoint replace_char (a b : ascii) (s : string) : string :=
  match s with
  | "" => ""
  | String c s' =>
      String (if Ascii.eqb c a then b else c) (replace_char a b s')
  end.

End PyMore.

(** ** [utils.py] *)

Module Utils.

Definition validate_file_extension (filename : string)
    (allowed_extensions : list string) : bool :=
  Py.contains "." filename &&
  match index (rsplit1 "." filename) 1 with
  | Value ext => existsb (String.eqb (Py.lower ext)) allowed_extensions
  | Raise _ => false
  end.

Definition sanitize_filename (filename : string) : string :=
  let filename :=
    PyMore.keep_chars
      (fun c => PyMore.is_word c || Py.is_space c
                || Ascii.eqb c "." || Ascii.eqb c "-")
      filename in
  PyMore.replace_char " " "_" filename.

Definition truncate_text (text : string) (max_length : Z) (suffix : string)
  : string :=
  if (Z.of_nat (String.length text) <=? max_length)%Z then text
  else
    PyMore.slice_to_int (max_length - Z.of_nat (String.length suffix)) text
    +:+ suffix.

Definition extract_key_phrases (text : string) (num_phrases : Z)
  : list string :=
  let sentences := Py.split "." text in
  let sentences :=
    map Py.strip
      (List.filter (fun s => (20 <? String.length (Py.strip s))%nat)
         sentences) in
  PyMore.list_slice_to_int num_phrases sentences.

Definition count_words (text : string) : nat :=
  List.length (PyMore.split_blank text).

Definition clean_text (text : string) : string :=
  let text := PyMore.squeeze_blanks text in
  let text := PyMore.squeeze_newlines text in
  Py.strip text.

Definition get_file_extension (filename : string) : exn string :=
  if Py.contains "." filename then
    match index (rsplit1 "." filename) 1 with
    | Value ext => Value (Py.lower ext)
    | Raise e => Raise e
    end
  else Value "".

End Utils.

(** ** Export of the current analysis *)

(** One call on the [FPDF] object that [save_to_pdf] builds. *)
Inductive pdf_call : Type :=
  | add_page
  | set_auto_page_break (auto : bool) (margin : Z)
  | set_font (family style : string) (size : Z)
  | cell (w h : Z) (txt : string) (ln : bool) (align : string)
  | ln (h : Z)
  | multi_cell (w h : Z) (txt : string).

(** What the export uses from outside the repository: the clock in its
    two formats, [os.makedirs], and the [FPDF] object, which receives the
    calls of a document and the path to write, and fails when one of the
    calls or the writing fails. *)
Record printer : Type := {
  (** [datetime.now().strftime("%Y%m%d_%H%M%S")] *)
  file_stamp : string;
  (** [datetime.now().strftime('%Y-%m-%d %H:%M:%S')] *)
  page_stamp : string;
  (** [os.makedirs(path, exist_ok=True)] *)
  makedirs : string -> exn unit;
  (** the calls up to and including [pdf.output(path)] *)
  fpdf : list pdf_call -> string -> exn unit;
  (** [os.path.exists] *)
  path_exists : string -> bool
}.

Section Exporting.

Variable pr : printer.

(** The name that [save_to_pdf] gives to [pdf.output]. *)
Definition pdf_target (filename : option string) : string :=
  let filename :=
    match filename with
    | Some (String c n) => String c n
    | _ => "simplified_legal_doc_" +:+ file_stamp pr +:+ ".pdf"
    end in
  if negb (Py.startswith "outputs/" filename)
  then Py.path_join "outputs" filename
  else filename.

(** The calls that [save_to_pdf] makes for [content]; the text is within
    latin-1 already, so the re-encoding leaves it as it is. *)
Definition pdf_calls (content : string) : list pdf_call :=
  [ add_page;
    set_auto_page_break true 15;
    set_font "Arial" "B" 16;
    cell 0 10 "Legal Document Analysis" true "C";
    ln 5;
    set_font "Arial" "I" 10;
    cell 0 10 ("Generated: " +:+ page_stamp pr) true "";
    ln 5;
    set_font "Arial" "" 11 ]
  ++ map (fun line =>
            if negb (String.eqb (Py.strip line) "")
            then multi_cell 0 6 line else ln 3)
       (Py.split (String "010" "") content).

Definition save_to_pdf (content : string) (filename : option string)
  : exn string :=
  match makedirs pr "outputs" with
  | Raise e => Raise e
  | Value _ =>
      let filename := pdf_target filename in
      match fpdf pr (pdf_calls content) filename with
      | Value _ => Value filename
      | Raise e => Value ("Error saving PDF: " +:+ e)
      end
  end.

(** The reply of the export route, with its HTTP status. *)
Inductive export_reply : Type :=
  | export_error (e : string) (status : Z)
  | export_saved (filename : string).

(** [save_pdf] of [api.py]; it leaves the simplifier as it is. *)
Definition save_pdf (filename : option string) (s : simplifier)
  : export_reply :=
  match current_analysis s with
  | Some (String c a) =>
      let filename :=
        match filename with
        | Some f =>
            if truthy filename && negb (PyMore.endswith ".pdf" f)
            then Some (f +:+ ".pdf") else filename
        | None => None
        end in
      match save_to_pdf (String c a) filename with
      | Raise e => export_error e 500
      | Value filepath =>
          if Py.startswith "Error" filepath then export_error filepath 500
          else export_saved (Py.basename filepath)
      end
  | _ => export_error "No analysis to save" 400
  end.

Definition OUTPUT_FOLDER : string := "outputs".

(** The path that [download_pdf] hands to [send_file], as a string.
    Which file [send_file] opens for a relative path is decided by
    Flask and is not part of this definition. *)
Definition download_path (filename : string) : string :=
  let filepath := Py.path_join OUTPUT_FOLDER filename in
  if negb (path_exists pr filepath) then filename else filepath.

End Exporting.

(** ** A conversation of several chats *)

(** The calls [chat(m, c)] for every [(m, c)] of a list, in order. *)
Fixpoint chats (calls : list (string * option string)) (s : simplifier)
  : simplifier :=
  match calls with
  | [] => s
  | (user_message, document_context) :: rest =>
      chats rest (snd (chat user_message document_context s))
  end.

(** The number of calls of a conversation that the service answers. *)
Fixpoint answered (calls : list (string * option string)) (s : simplifier)
  : nat :=
  match calls with
  | [] => 0
  | (user_message, document_context) :: rest =>
      let turn :=
        Message "user" (chat_prompt user_message document_context) in
      match answer s (chat_request (conversation_history s ++ [turn])) with
      | Value _ => 1
      | Raise _ => 0
      end
      + answered rest (snd (chat user_message document_context s))
  end.

(** ** Entries of a concerns list *)

Definition CONCERN_KEYS : list string :=
  ["severity"; "clause"; "concern"; "recommendation"].

(** An entry that [get_concerns] can report: an object that has the four
    keys. *)
Definition complete (c : json) : bool :=
  match c with
  | JObj fields =>
      forallb
        (fun k => existsb (fun kv => String.eqb (fst kv) k) fields)
        CONCERN_KEYS
  | _ => false
  end.

Definition REPORT_TITLE : string :=
  "CONCERNING CLAUSES ANALYSIS" +:+ String "010" (String "010" "").

(** Every blank is a plain space that a visible character, or the end,
    follows. *)
Fixpoint single_spaced (s : string) : bool :=
  match s with
  | "" => true
  | String c s' =>
      (negb (Py.is_space c)
       || (Ascii.eqb c " "
           && match s' with
              | "" => true
              | String d _ => negb (Py.is_space d)
              end))
      && single_spaced s'
  end.

(** ** More sample surroundings *)

Module Sample2.

(** A world whose [secure_filename] drops a leading dot, as werkzeug
    does, and whose disk is full. *)
Definition world : world :=
  {| pdf_pages := pdf_pages Sample.world;
     docx_paragraphs := docx_paragraphs Sample.world;
     utf8_file := utf8_file Sample.world;
     clock := "2024-05-02 10:00:00";
     json_loads := json_loads Sample.world;
     secure_filename := fun n =>
       match n with
       | String "." rest => rest
       | _ => n
       end;
     file_save := fun p =>
       if Py.contains "huge" p then Raise "No space left on device"
       else Value tt;
     py_str := py_str Sample.world |}.

(** A printer that writes every file but those named [locked]. *)
Definition printer : printer :=
  {| file_stamp := "20240502_100000";
     page_stamp := "2024-05-02 10:00:00";
     makedirs := fun _ => Value tt;
     fpdf := fun _ p =>
       if Py.contains "locked" p then Raise "Permission denied"
       else Value tt;
     path_exists := fun p => Py.startswith "outputs/" p |}.

(** The text of a list with one concern, and a parser that knows it. *)
Definition one_concern : json :=
  JArr [JObj [("clause", JStr "pay $500 monthly");
              ("concern", JStr "No cap on increases.");
              ("severity", JStr "MEDIUM");
              ("recommendation", JStr "Ask for a cap.")]].

Definition loads (t : string) : exn json :=
  if String.eqb t "[concern]" then Value one_concern
  else json_loads Sample.world t.

Definition reader :=
  {| pdf_pages := pdf_pages world;
     docx_paragraphs := docx_paragraphs world;
     utf8_file := utf8_file world;
     clock := clock world;
     json_loads := loads;
     secure_filename := secure_filename world;
     file_save := file_save world;
     py_str := py_str world |}.

(** A short lease. *)
Definition lease : document :=
  {| text := "Tenant shall pay $500 monthly."; path := "a.txt";
     loaded_at := "2024-05-02 10:00:00" |}.

(** A simplifier that holds the lease, behind a given service. *)
Definition library (service : nat -> request -> exn string) : simplifier :=
  {| client := {| completions := service; sent := [] |};
     conversation_history := [];
     loaded_documents := <["a.txt" := lease]> ∅;
     current_analysis := None |}.

End Sample2.

(** ** Facts about Python strings *)

Module PyFacts.
Import Py.

#[local] Arguments String.append !s1 s2 : simpl nomatch.

Lemma app_nil_r (s : string) : s +:+ "" = s.
Proof. induction s as [|c s IH]; simpl; [reflexivity | f_equal; exact IH]. Qed.

Lemma app_assoc (a b c : string) : (a +:+ b) +:+ c = a +:+ b +:+ c.
Proof. induction a as [|x a IH]; simpl; [reflexivity | f_equal; exact IH]. Qed.

Lemma app_length (a b : string) :
  String.length (a +:+ b) = String.length a + String.length b.
Proof. induction a as [|x a IH]; simpl; [reflexivity | f_equal; exact IH]. Qed.

Lemma startswith_app (p r : string) : startswith p (p +:+ r) = true.
Proof.
  induction p as [|c p IH]; simpl; [reflexivity|].
  now rewrite Ascii.eqb_refl, IH.
Qed.

Lemma slice_from_app (p r : string) : slice_from (String.length p) (p +:+ r) = r.
Proof. induction p as [|c p IH]; simpl; [now destruct r | exact IH]. Qed.

Lemma startswith_inv (p s : string) :
  startswith p s = true -> s = p +:+ slice_from (String.length p) s.
Proof.
  revert s; induction p as [|c p IH]; intros s H; simpl in *.
  - now destruct s.
  - destruct s as [|d s]; [discriminate|].
    apply andb_prop in H as [Hc Hp].
    apply Ascii.eqb_eq in Hc; subst d. f_equal. now apply IH.
Qed.

Lemma startswith_mono (p s r : string) :
  startswith p s = true -> startswith p (s +:+ r) = true.
Proof.
  revert s; induction p as [|c p IH]; intros s H; simpl in *; [reflexivity|].
  destruct s as [|d s]; [discriminate|]; simpl.
  apply andb_prop in H as [Hc Hp]. rewrite Hc; simpl. now apply IH.
Qed.

Lemma startswith_long (p x r : string) :
  String.length p <= String.length x ->
  startswith p (x +:+ r) = startswith p x.
Proof.
  revert x; induction p as [|c p IH]; intros x H; simpl in *; [reflexivity|].
  destruct x as [|d x]; simpl in *; [lia|].
  rewrite IH by lia. reflexivity.
Qed.

Lemma cut_sound (sep s a b : string) :
  cut sep s = Some (a, b) -> s = a +:+ sep +:+ b.
Proof.
  revert a b; induction s as [|c s IH]; intros a b H.
  - simpl in H. destruct (startswith sep "") eqn:E; [|discriminate].
    injection H as <- <-. now apply startswith_inv.
  - cbn [cut] in H. destruct (startswith sep (String c s)) eqn:E.
    + injection H as <- <-. now apply startswith_inv.
    + destruct (cut sep s) as [[a' b']|] eqn:C; [|discriminate].
      injection H as <- <-. simpl. f_equal. now apply IH.
Qed.


Lemma cut_found (sep a b : string) :
  (forall a' b', a +:+ sep +:+ b = a' +:+ sep +:+ b' ->
                 String.length a <= String.length a') ->
  cut sep (a +:+ sep +:+ b) = Some (a, b).
Proof.
  induction a as [|c a IH]; intros Hmin.
  - cbn [String.append].
    assert (E : startswith sep (sep +:+ b) = true) by apply startswith_app.
    destruct (sep +:+ b) as [|d r] eqn:Es; cbn [cut]; rewrite E;
      rewrite <- Es, slice_from_app; reflexivity.
  - cbn [String.append cut].
    destruct (startswith sep (String c (a +:+ sep +:+ b))) eqn:E.
    + apply startswith_inv in E.
      specialize (Hmin "" _ E). simpl in Hmin. lia.
    + rewrite IH; [reflexivity|].
      intros a' b' H. specialize (Hmin (String c a') b').
      simpl in Hmin. rewrite H in Hmin. specialize (Hmin eq_refl). lia.
Qed.

Lemma cut_minimal (sep s a b a' b' : string) :
  cut sep s = Some (a, b) -> s = a' +:+ sep +:+ b' ->
  String.length a <= String.length a'.
Proof.
  revert a b a' b'; induction s as [|c s IH]; intros a b a' b' H E.
  - simpl in H. destruct (startswith sep ""); [|discriminate].
    injection H as <- <-. simpl; lia.
  - cbn [cut] in H. destruct (startswith sep (String c s)) eqn:P.
    + injection H as <- <-. simpl; lia.
    + destruct (cut sep s) as [[x y]|] eqn:C; [|discriminate].
      injection H as <- <-.
      destruct a' as [|d a'].
      * simpl in E. rewrite E, startswith_app in P. discriminate.
      * simpl in E. injection E as -> E. simpl.
        specialize (IH x y a' b' eq_refl E). lia.
Qed.

Lemma cut_first (sep s a b : string) :
  cut sep s = Some (a, b) <-> first_occurrence sep s a b.
Proof.
  split.
  - intros H. split; [now apply cut_sound|].
    intros a' b' E. eapply cut_minimal; eauto.
  - intros [-> Hmin]. now apply cut_found.
Qed.

Lemma cut_left_clean (sep s a b : string) :
  sep <> "" -> cut sep s = Some (a, b) -> cut sep a = None.
Proof.
  intros Hsep; revert a b; induction s as [|c s IH]; intros a b H.
  - simpl in H. destruct sep; [congruence | discriminate].
  - cbn [cut] in H. destruct (startswith sep (String c s)) eqn:P.
    + injection H as <- <-. destruct sep; [congruence | reflexivity].
    + destruct (cut sep s) as [[x y]|] eqn:C; [|discriminate].
      injection H as <- <-. cbn [cut].
      destruct (startswith sep (String c x)) eqn:Q.
      * apply cut_sound in C. subst s.
        apply (startswith_mono _ _ (sep +:+ y)) in Q. simpl in Q.
        rewrite Q in P. discriminate.
      * now rewrite (IH x y eq_refl).
Qed.

Lemma cut_retarget (sep a b b2 : string) :
  cut sep (a +:+ sep +:+ b) = Some (a, b) ->
  cut sep (a +:+ sep +:+ b2) = Some (a, b2).
Proof.
  intros H. apply cut_found. intros a' b' E.
  destruct (Nat.le_gt_cases (String.length a) (String.length a')) as [L|L];
    [exact L|].
  exfalso.
  (* an occurrence left of [a] lies within [a +:+ sep], hence also in the
     original text *)
  revert a' b' E L H. induction a as [|c a IH]; intros a' b' E L H.
  - simpl in L; lia.
  - destruct a' as [|d a'].
    + cbn [String.append] in H, E. cbn [cut] in H.
      assert (P : startswith sep (String c (a +:+ sep +:+ b)) = true).
      { rewrite <- app_assoc.
        change (String c ((a +:+ sep) +:+ b))
          with ((String c (a +:+ sep)) +:+ b).
        rewrite startswith_long by (simpl; rewrite app_length; lia).
        rewrite <- (startswith_long sep (String c (a +:+ sep)) b2)
          by (simpl; rewrite app_length; lia).
        simpl. rewrite app_assoc. rewrite E. apply startswith_app. }
      rewrite P in H. injection H as H _. discriminate.
    + cbn [String.append] in H, E. injection E as -> E.
      cbn [cut] in H.
      destruct (startswith sep (String d (a +:+ sep +:+ b))); [discriminate|].
      destruct (cut sep (a +:+ sep +:+ b)) as [[x y]|] eqn:C; [|discriminate].
      injection H as -> ->.
      apply (IH a' b' E); [simpl in L; lia | reflexivity].
Qed.

Lemma contains_cut (sep s : string) :
  contains sep s = match cut sep s with Some _ => true | None => false end.
Proof.
  induction s as [|c s IH]; cbn [contains cut].
  - now destruct (startswith sep "").
  - destruct (startswith sep (String c s)); [reflexivity|].
    rewrite IH. simpl. now destruct (cut sep s) as [[a b]|].
Qed.

Lemma contains_right (sep m r : string) :
  contains sep m = true -> contains sep (m +:+ r) = true.
Proof.
  induction m as [|c m IH]; cbn [contains]; intros H.
  - rewrite orb_false_r in H. destruct sep; [|discriminate].
    now destruct r.
  - apply orb_prop in H as [H|H].
    + apply (startswith_mono _ _ r) in H. simpl in H.
      simpl. now rewrite H.
    + simpl. rewrite (IH H). apply orb_true_r.
Qed.

Lemma contains_left (sep l m : string) :
  contains sep m = true -> contains sep (l +:+ m) = true.
Proof.
  intros H. induction l as [|c l IH]; simpl; [exact H|].
  rewrite IH. apply orb_true_r.
Qed.

Lemma contains_occurrence (sep a b : string) :
  contains sep (a +:+ sep +:+ b) = true.
Proof.
  apply contains_left.
  destruct (sep +:+ b) eqn:E; cbn [contains];
    rewrite <- E, startswith_app; reflexivity.
Qed.

Lemma contains_longer (p q s : string) :
  contains (p +:+ q) s = true -> contains p s = true.
Proof.
  rewrite contains_cut.
  destruct (cut (p +:+ q) s) as [[a b]|] eqn:C; [|discriminate].
  intros _. apply cut_sound in C. subst s.
  rewrite app_assoc. apply contains_occurrence.
Qed.

Lemma cut_shorter (sep s a b : string) :
  sep <> "" -> cut sep s = Some (a, b) -> String.length b < String.length s.
Proof.
  intros Hsep C. apply cut_sound in C. subst s.
  rewrite !app_length. destruct sep; [congruence|]. simpl. lia.
Qed.

Lemma cut_empty (sep : string) : sep <> "" -> cut sep "" = None.
Proof. destruct sep; [congruence | reflexivity]. Qed.

Lemma split_fuel_enough (sep : string) (n m : nat) (s : string) :
  sep <> "" -> String.length s <= n -> String.length s <= m ->
  split_fuel n sep s = split_fuel m sep s.
Proof.
  intros Hsep. revert m s. induction n as [|n IH]; intros m s Hn Hm.
  - destruct s; [|simpl in Hn; lia].
    destruct m; cbn [split_fuel]; [reflexivity|].
    now rewrite cut_empty.
  - destruct m as [|m].
    + destruct s; [|simpl in Hm; lia].
      cbn [split_fuel]. now rewrite cut_empty.
    + cbn [split_fuel]. destruct (cut sep s) as [[a b]|] eqn:C; [|reflexivity].
      pose proof (cut_shorter _ _ _ _ Hsep C). f_equal. apply IH; lia.
Qed.

(** The equation that [str.split] satisfies. *)
Lemma split_unfold (sep s : string) :
  sep <> "" ->
  split sep s = match cut sep s with
                | None => [s]
                | Some (a, b) => a :: split sep b
                end.
Proof.
  intros Hsep. unfold split.
  rewrite (split_fuel_enough sep _ (S (String.length s))) by (auto; lia).
  cbn [split_fuel]. destruct (cut sep s) as [[a b]|] eqn:C; [|reflexivity].
  pose proof (cut_shorter _ _ _ _ Hsep C). f_equal.
  apply split_fuel_enough; auto; lia.
Qed.

Lemma split_head (sep s : string) :
  sep <> "" -> nth_error (split sep s) 0 = Some (first_piece sep s).
Proof.
  intros Hsep. rewrite split_unfold by exact Hsep. unfold first_piece.
  now destruct (cut sep s) as [[a b]|].
Qed.

Lemma split_second (sep s a b : string) :
  sep <> "" -> cut sep s = Some (a, b) ->
  nth_error (split sep s) 1 = Some (first_piece sep b).
Proof.
  intros Hsep C. rewrite split_unfold, C by exact Hsep.
  cbn [nth_error]. now apply split_head.
Qed.

Lemma first_piece_clean (sep s : string) :
  sep <> "" -> first_piece sep (first_piece sep s) = first_piece sep s.
Proof.
  intros Hsep. unfold first_piece at 2 3.
  destruct (cut sep s) as [[a b]|] eqn:C; unfold first_piece.
  - now rewrite (cut_left_clean _ _ _ _ Hsep C).
  - now rewrite C.
Qed.

Lemma lstrip_suffix (s : string) : exists ws, s = ws +:+ lstrip s.
Proof.
  induction s as [|c s [ws IH]]; [now exists ""|].
  cbn [lstrip]. destruct (is_space c).
  - exists (String c ws). simpl. now f_equal.
  - now exists "".
Qed.

Lemma rstrip_prefix (s : string) : exists ws, s = rstrip s +:+ ws.
Proof.
  induction s as [|c s [ws IH]]; [now exists ""|].
  cbn [rstrip]. destruct (rstrip s) as [|d r] eqn:E.
  - destruct (is_space c).
    + exists (String c s). reflexivity.
    + exists ws. simpl. f_equal. exact IH.
  - exists ws. simpl. f_equal. exact IH.
Qed.

Lemma rstrip_cons (c : ascii) (z : string) :
  is_space c = false -> rstrip (String c z) = String c (rstrip z).
Proof.
  intros H. cbn [rstrip]. destruct (rstrip z); [now rewrite H | reflexivity].
Qed.

Lemma rstrip_keep (x : string) (c : ascii) (z : string) :
  is_space c = false ->
  rstrip (x +:+ String c z) = x +:+ String c (rstrip z).
Proof.
  intros H. induction x as [|d x IH]; simpl String.append.
  - now apply rstrip_cons.
  - cbn [rstrip]. rewrite IH. now destruct x.
Qed.

Lemma contains_lstrip (sep s : string) :
  contains sep (lstrip s) = true -> contains sep s = true.
Proof.
  intros H. destruct (lstrip_suffix s) as [ws E]. rewrite E.
  now apply contains_left.
Qed.

Lemma contains_rstrip (sep s : string) :
  contains sep (rstrip s) = true -> contains sep s = true.
Proof.
  intros H. destruct (rstrip_prefix s) as [ws E]. rewrite E.
  now apply contains_right.
Qed.

Lemma contains_strip (sep s : string) :
  contains sep s = false -> contains sep (strip s) = false.
Proof.
  intros H. unfold strip.
  destruct (contains sep (rstrip (lstrip s))) eqn:E; [|reflexivity].
  apply contains_rstrip, contains_lstrip in E. congruence.
Qed.


(** A separator that starts with a visible character is found in the
    left-stripped text where it was, with the blanks before it gone. *)
Lemma cut_lstrip (c : ascii) (sep' s a b : string) :
  is_space c = false ->
  cut (String c sep') s = Some (a, b) ->
  cut (String c sep') (lstrip s) = Some (lstrip a, b).
Proof.
  intros Hc. revert a. induction s as [|d s IH]; intros a H.
  - discriminate.
  - cbn [cut] in H. destruct (startswith (String c sep') (String d s)) eqn:P.
    + injection H as <- <-.
      assert (d = c) as ->.
      { simpl in P. apply andb_prop in P as [P _].
        apply Ascii.eqb_eq in P. congruence. }
      cbn [lstrip]. rewrite Hc. cbn [cut]. now rewrite P.
    + destruct (cut (String c sep') s) as [[x y]|] eqn:C; [|discriminate].
      injection H as <- <-. cbn [lstrip]. destruct (is_space d).
      * now apply IH.
      * cbn [cut]. now rewrite P, C.
Qed.


Lemma rstrip_fence (x z : string) :
  rstrip (x +:+ FENCE +:+ z) = x +:+ FENCE +:+ rstrip z.
Proof.
  change (FENCE +:+ z) with ("``" +:+ String "`" z).
  change (FENCE +:+ rstrip z) with ("``" +:+ String "`" (rstrip z)).
  rewrite <- !app_assoc. now apply rstrip_keep.
Qed.





End PyFacts.

(** ** Facts about the concerns interpreter *)

Section Interpreter.

Import Py PyFacts.
Variable w : world.

#[local] Arguments String.append !s1 s2 : simpl nomatch.

Lemma FENCE_nonempty : FENCE <> "".
Proof. discriminate. Qed.

Lemma JSON_FENCE_nonempty : JSON_FENCE <> "".
Proof. discriminate. Qed.

Lemma index_nth {A} (xs : list A) (i : nat) (x : A) :
  nth_error xs i = Some x -> index xs i = Value x.
Proof. unfold index. now intros ->. Qed.








End Interpreter.

(** ** The concerns interpreter *)




(** ** Documents that are not loaded *)

Lemma named_document_missing (s : simplifier) (n : string) :
  loaded_documents s !! n = None ->
  named_document (loaded_documents s) (Some n) = None.
Proof. intros H. unfold named_document. now destruct (truthy (Some n)). Qed.

(** C1, as the code has it.  Analyze and concerns answer a name that is
    not loaded with the 404 reply "Document not found" and leave the
    simplifier as it was; compare returns its not-found text, as the
    comparison of a successful reply, without sending a request; chat
    does not fail: it treats the name as absent and sends the message
    alone to the model. *)
Theorem unknown_document_by_task
    (w : world) (s : simplifier) (n : string) :
  loaded_documents s !! n = None ->
  analyze_document (Some n) s = (Value (error "Document not found", 404%Z), s)
  /\ get_concerns w (Some n) s
     = (Value (error "Document not found", 404%Z), s)
  /\ (forall m,
        compare_documents n m s = (Value NOT_LOADED, s)
        /\ compare_documents m n s = (Value NOT_LOADED, s))
  /\ (forall m,
        truthy (Some n) = true -> truthy (Some m) = true ->
        api_compare_documents (Some n) (Some m) s
        = (Value (ok (compared NOT_LOADED)), snd (set_analysis NOT_LOADED s))
        /\ api_compare_documents (Some m) (Some n) s
           = (Value (ok (compared NOT_LOADED)),
              snd (set_analysis NOT_LOADED s)))
  /\ (forall message,
        api_chat message (Some n) s = api_chat message None s
        /\ sent (client (snd (api_chat message (Some n) s)))
           = (sent (client s)
              ++ [chat_request
                    (conversation_history s ++ [Message "user" message])])%list).
Proof.
  intros H.
  assert (C : forall m, compare_documents n m s = (Value NOT_LOADED, s)
                        /\ compare_documents m n s = (Value NOT_LOADED, s)).
  { intros m. unfold compare_documents, bind, documents. rewrite H.
    split; [reflexivity|].
    now destruct (loaded_documents s !! m). }
  repeat split.
  - unfold analyze_document, guarded, try_except, bind, documents.
    now rewrite (named_document_missing s n H).
  - unfold get_concerns, guarded, try_except, bind, documents.
    now rewrite (named_document_missing s n H).
  - apply C.
  - apply C.
  - unfold api_compare_documents, guarded, try_except, bind.
    rewrite H0, H1. cbn [andb].
    now rewrite (proj1 (C m)).
  - unfold api_compare_documents, guarded, try_except, bind.
    rewrite H0, H1. cbn [andb].
    now rewrite (proj2 (C m)).
  - unfold api_chat, guarded, try_except, bind, documents.
    now rewrite (named_document_missing s n H).
  - unfold api_chat, guarded, try_except, bind, documents.
    rewrite (named_document_missing s n H).
    unfold chat, chat_prompt, try_except, bind, append_history, history,
      create, ret.
    cbn [conversation_history].
    destruct (answer _ _); reflexivity.
Qed.

Lemma unknown_document_by_task_witness :
  analyze_document (Some "ghost.pdf") Sample.library
  = (Value (error "Document not found", 404%Z), Sample.library)
  /\ fst (api_compare_documents (Some "a.txt") (Some "ghost.pdf")
            Sample.library)
     = Value (ok (compared NOT_LOADED)).
Proof.
  destruct (unknown_document_by_task Sample.world Sample.library "ghost.pdf"
              eq_refl) as (A & _ & _ & B & _).
  split; [exact A|].
  now rewrite (proj2 (B "a.txt" eq_refl eq_refl)).
Defined.

(** C1 as stated fails for chat: with no document loaded, a chat that
    names a document still succeeds and one request goes to the model. *)
Lemma chat_with_unknown_document_calls_model :
  loaded_documents (new_simplifier (Sample.says "It is a lease."))
    !! "ghost.pdf" = None
  /\ fst (api_chat "Is this fair?" (Some "ghost.pdf")
            (new_simplifier (Sample.says "It is a lease.")))
     = Value (ok (replied "It is a lease."))
  /\ sent (client (snd (api_chat "Is this fair?" (Some "ghost.pdf")
                          (new_simplifier (Sample.says "It is a lease.")))))
     = [chat_request [Message "user" "Is this fair?"]].
Proof. repeat split. Qed.

(** ** The transcript of a chat *)

Lemma chat_success (s : simplifier) (user_message : string)
    (document_context : option string) (a : string) :
  let p := Message "user" (chat_prompt user_message document_context) in
  answer s (chat_request (conversation_history s ++ [p])) = Value a ->
  chat user_message document_context s
  = (Value a,
     with_turn (Message "assistant" a)
       (after_request (chat_request (conversation_history s ++ [p]))
          (with_turn p s))).
Proof.
  intros p H.
  unfold chat, try_except, bind, append_history, history, create, ret.
  fold p. cbn [conversation_history with_turn].
  change (answer _ (chat_request (conversation_history s ++ [p])))
    with (answer s (chat_request (conversation_history s ++ [p]))).
  now rewrite H.
Qed.

Lemma chat_failure (s : simplifier) (user_message : string)
    (document_context : option string) (e : string) :
  let p := Message "user" (chat_prompt user_message document_context) in
  answer s (chat_request (conversation_history s ++ [p])) = Raise e ->
  chat user_message document_context s
  = (Value ("Error: " +:+ e),
     after_request (chat_request (conversation_history s ++ [p]))
       (with_turn p s)).
Proof.
  intros p H.
  unfold chat, try_except, bind, append_history, history, create, ret.
  fold p. cbn [conversation_history with_turn].
  change (answer _ (chat_request (conversation_history s ++ [p])))
    with (answer s (chat_request (conversation_history s ++ [p]))).
  now rewrite H.
Qed.

(** C8.  From an empty history, two chats that the model answers leave
    four turns, user, assistant, user, assistant, in the order of the
    calls, and clearing the conversation leaves none. *)
Theorem two_chats_make_four_turns
    (s : simplifier) (m1 m2 : string) (c1 c2 : option string)
    (a1 a2 : string) :
  let p1 := Message "user" (chat_prompt m1 c1) in
  let p2 := Message "user" (chat_prompt m2 c2) in
  let s1 := snd (chat m1 c1 s) in
  let s2 := snd (chat m2 c2 s1) in
  conversation_history s = [] ->
  answer s (chat_request [p1]) = Value a1 ->
  answer s1 (chat_request [p1; Message "assistant" a1; p2]) = Value a2 ->
  fst (chat m1 c1 s) = Value a1
  /\ fst (chat m2 c2 s1) = Value a2
  /\ conversation_history s2
     = [p1; Message "assistant" a1; p2; Message "assistant" a2]
  /\ map role (conversation_history s2)
     = ["user"; "assistant"; "user"; "assistant"]
  /\ List.length (conversation_history s2) = 4
  /\ fst (clear_conversation s2) = Value (ok cleared)
  /\ List.length (conversation_history (snd (clear_conversation s2))) = 0.
Proof.
  intros p1 p2 s1 s2 H0 H1 H2.
  assert (E1 : chat m1 c1 s
               = (Value a1,
                  with_turn (Message "assistant" a1)
                    (after_request (chat_request [p1]) (with_turn p1 s)))).
  { pose proof (chat_success s m1 c1 a1) as C. cbv zeta in C.
    fold p1 in C. rewrite H0 in C. now apply C. }
  assert (H1' : conversation_history s1 = [p1; Message "assistant" a1]).
  { unfold s1. rewrite E1. cbn. now rewrite H0. }
  assert (E2 : chat m2 c2 s1
               = (Value a2,
                  with_turn (Message "assistant" a2)
                    (after_request
                       (chat_request [p1; Message "assistant" a1; p2])
                       (with_turn p2 s1)))).
  { pose proof (chat_success s1 m2 c2 a2) as C. cbv zeta in C.
    fold p2 in C. rewrite H1' in C. now apply C. }
  assert (H2' : conversation_history s2
                = [p1; Message "assistant" a1; p2; Message "assistant" a2]).
  { unfold s2. rewrite E2. cbn. now rewrite H1'. }
  rewrite E1 at 1. rewrite E2 at 1. rewrite H2'.
  repeat split.
Qed.

Lemma two_chats_make_four_turns_witness :
  map role
    (conversation_history
       (snd (chat "And the rent?" None
               (snd (chat "What is this?" (Some "Lease of a flat.")
                       (new_simplifier Sample.dialogue))))))
  = ["user"; "assistant"; "user"; "assistant"].
Proof.
  exact (proj1 (proj2 (proj2 (proj2
    (two_chats_make_four_turns (new_simplifier Sample.dialogue)
       "What is this?" "And the rent?" (Some "Lease of a flat.") None
       "It is a lease." "Rent is due monthly."
       eq_refl eq_refl eq_refl))))).
Defined.

(** C9.  When the model call of a chat fails, the user turn is already in
    the history and stays there, no assistant turn follows it, and the
    error text goes to the caller only. *)
Theorem failed_chat_keeps_user_turn
    (s : simplifier) (user_message : string)
    (document_context : option string) (e : string) :
  let p := Message "user" (chat_prompt user_message document_context) in
  let s' := snd (chat user_message document_context s) in
  answer s (chat_request (conversation_history s ++ [p])) = Raise e ->
  fst (chat user_message document_context s) = Value ("Error: " +:+ e)
  /\ conversation_history s' = (conversation_history s ++ [p])%list
  /\ List.length (conversation_history s')
     = S (List.length (conversation_history s))
  /\ (forall d, List.last (conversation_history s') d = p)
  /\ role p = "user".
Proof.
  intros p s' H. unfold s'.
  rewrite (chat_failure s user_message document_context e H).
  cbn [fst snd after_request with_turn conversation_history].
  repeat split.
  - rewrite List.length_app. cbn. lia.
  - intros d. now rewrite List.last_last.
Qed.

Lemma failed_chat_keeps_user_turn_witness :
  fst (chat "What is this?" None (new_simplifier Sample.down))
  = Value "Error: Connection error."
  /\ conversation_history
       (snd (chat "What is this?" None (new_simplifier Sample.down)))
     = [Message "user" "What is this?"].
Proof.
  destruct (failed_chat_keeps_user_turn (new_simplifier Sample.down)
              "What is this?" None "Connection error." eq_refl)
    as (A & B & _).
  split; [exact A | exact B].
Defined.

(** ** What the tasks return *)

Lemma compare_loaded (s : simplifier) (n1 n2 : string) (d1 d2 : document) :
  loaded_documents s !! n1 = Some d1 ->
  loaded_documents s !! n2 = Some d2 ->
  compare_documents n1 n2 s
  = try_except
      (create (compare_request n1 (Py.slice_to 3000 (text d1))
                 n2 (Py.slice_to 3000 (text d2))))
      (fun e => ret ("Error comparing documents: " +:+ e)) s.
Proof.
  intros H1 H2. unfold compare_documents, bind, documents.
  now rewrite H1, H2.
Qed.

(** C6, as the code has it.  When the model call succeeds, simplify,
    compare and chat return the text of the model as it came, blanks at
    both ends included. *)
Theorem free_text_tasks_return_output_verbatim
    (s : simplifier) (out : string) :
  (forall legal_text query,
      answer s (simplify_request legal_text query) = Value out ->
      fst (simplify_legal_text legal_text query s) = Value out)
  /\ (forall n1 n2 d1 d2,
      loaded_documents s !! n1 = Some d1 ->
      loaded_documents s !! n2 = Some d2 ->
      answer s (compare_request n1 (Py.slice_to 3000 (text d1))
                  n2 (Py.slice_to 3000 (text d2))) = Value out ->
      fst (compare_documents n1 n2 s) = Value out)
  /\ (forall user_message document_context,
      answer s (chat_request
                  (conversation_history s
                   ++ [Message "user"
                         (chat_prompt user_message document_context)]))
      = Value out ->
      fst (chat user_message document_context s) = Value out).
Proof.
  repeat split.
  - intros legal_text query H.
    unfold simplify_legal_text, try_except, create. now rewrite H.
  - intros n1 n2 d1 d2 H1 H2 H.
    rewrite (compare_loaded s n1 n2 d1 d2 H1 H2).
    unfold try_except, create. now rewrite H.
  - intros user_message document_context H.
    now rewrite (chat_success s user_message document_context out H).
Qed.

Lemma free_text_tasks_return_output_verbatim_witness :
  fst (simplify_legal_text "Tenant shall pay." None
         (new_simplifier (Sample.says " A lease. ")))
  = Value " A lease. "
  /\ fst (compare_documents "a.txt" "b.txt" Sample.library)
     = Value "They differ."
  /\ fst (chat "What is this?" None
            (new_simplifier (Sample.says " A lease. ")))
     = Value " A lease. ".
Proof.
  destruct (free_text_tasks_return_output_verbatim
              (new_simplifier (Sample.says " A lease. ")) " A lease. ")
    as (A & _ & C).
  destruct (free_text_tasks_return_output_verbatim
              Sample.library "They differ.") as (_ & B & _).
  split; [|split].
  - exact (A "Tenant shall pay." None eq_refl).
  - exact (B "a.txt" "b.txt" _ _ eq_refl eq_refl eq_refl).
  - exact (C "What is this?" None eq_refl).
Defined.

(** C6 as stated fails: the text of the model comes back with the blanks
    it had, which trimming would have removed. *)
Lemma simplify_keeps_surrounding_blanks :
  fst (simplify_legal_text "Tenant shall pay." None
         (new_simplifier (Sample.says " A lease. ")))
  = Value " A lease. "
  /\ Py.strip " A lease. " = "A lease."
  /\ fst (simplify_legal_text "Tenant shall pay." None
            (new_simplifier (Sample.says " A lease. ")))
     <> Value (Py.strip " A lease. ").
Proof. repeat split. discriminate. Qed.

(** C4, as the code has it.  A failure of the model call never leaves a
    task: simplify, compare and chat turn it into a text that carries
    the message of the failure and return that text; the concerns task
    returns the empty list, so that no message reaches its caller.
    Every task returns a value in every state. *)
Theorem gateway_failure_stays_in_task
    (w : world) (s : simplifier) (e : string) :
  (forall legal_text query,
      answer s (simplify_request legal_text query) = Raise e ->
      simplify_legal_text legal_text query s
      = (Value ("Error calling API: " +:+ e),
         after_request (simplify_request legal_text query) s))
  /\ (forall n1 n2 d1 d2,
      loaded_documents s !! n1 = Some d1 ->
      loaded_documents s !! n2 = Some d2 ->
      answer s (compare_request n1 (Py.slice_to 3000 (text d1))
                  n2 (Py.slice_to 3000 (text d2))) = Raise e ->
      fst (compare_documents n1 n2 s)
      = Value ("Error comparing documents: " +:+ e))
  /\ (forall user_message document_context,
      answer s (chat_request
                  (conversation_history s
                   ++ [Message "user"
                         (chat_prompt user_message document_context)]))
      = Raise e ->
      fst (chat user_message document_context s) = Value ("Error: " +:+ e))
  /\ (forall legal_text,
      answer s (concerns_request legal_text) = Raise e ->
      highlight_concerning_clauses w legal_text s
      = (Value (JArr []), after_request (concerns_request legal_text) s))
  /\ (forall legal_text query,
      exists v, fst (simplify_legal_text legal_text query s) = Value v)
  /\ (forall n1 n2, exists v, fst (compare_documents n1 n2 s) = Value v)
  /\ (forall user_message document_context,
      exists v, fst (chat user_message document_context s) = Value v)
  /\ (forall legal_text,
      exists v, fst (highlight_concerning_clauses w legal_text s) = Value v).
Proof.
  split; [|split; [|split; [|split; [|split; [|split; [|split]]]]]].
  - intros legal_text query H.
    unfold simplify_legal_text, try_except, create. now rewrite H.
  - intros n1 n2 d1 d2 H H0 H1.
    rewrite (compare_loaded s n1 n2 d1 d2 H H0).
    unfold try_except, create. now rewrite H1.
  - intros user_message document_context H.
    now rewrite (chat_failure s user_message document_context e H).
  - intros legal_text H.
    unfold highlight_concerning_clauses, try_except, bind, create.
    now rewrite H.
  - intros legal_text query.
    unfold simplify_legal_text, try_except, create.
    destruct (answer s _); eexists; reflexivity.
  - intros n1 n2. unfold compare_documents, bind, documents.
    destruct (loaded_documents s !! n1), (loaded_documents s !! n2);
      try (eexists; reflexivity).
    unfold try_except, create. destruct (answer s _); eexists; reflexivity.
  - intros user_message document_context.
    unfold chat, try_except, bind, append_history, history, create, ret.
    destruct (answer _ _); eexists; reflexivity.
  - intros legal_text.
    unfold highlight_concerning_clauses, try_except, bind, create, lift.
    destruct (answer s _) as [a|]; [|eexists; reflexivity].
    destruct (parse_concerns w a); eexists; reflexivity.
Qed.

Lemma gateway_failure_stays_in_task_witness :
  fst (simplify_legal_text "Tenant shall pay." None
         (new_simplifier Sample.down))
  = Value "Error calling API: Connection error."
  /\ fst (compare_documents "a.txt" "b.txt" Sample.offline)
     = Value "Error comparing documents: Connection error."
  /\ fst (chat "What is this?" None (new_simplifier Sample.down))
     = Value "Error: Connection error."
  /\ fst (highlight_concerning_clauses Sample.world "Tenant shall pay."
            (new_simplifier Sample.down))
     = Value (JArr []).
Proof.
  destruct (gateway_failure_stays_in_task Sample.world
              (new_simplifier Sample.down) "Connection error.")
    as (A & _ & C & D & _).
  destruct (gateway_failure_stays_in_task Sample.world
              Sample.offline "Connection error.") as (_ & B & _).
  split; [|split; [|split]].
  - now rewrite (A "Tenant shall pay." None eq_refl).
  - exact (B "a.txt" "b.txt" _ _ eq_refl eq_refl eq_refl).
  - exact (C "What is this?" None eq_refl).
  - now rewrite (D "Tenant shall pay." eq_refl).
Defined.

(** C4 as stated fails for the concerns task: when the service is down
    the caller receives the empty list in a successful reply, the same
    reply as for a document without concerns, and no error text. *)
Lemma concerns_failure_returns_no_message :
  fst (highlight_concerning_clauses Sample.world "Tenant shall pay."
         (new_simplifier Sample.down))
  = Value (JArr [])
  /\ fst (highlight_concerning_clauses Sample.world "Tenant shall pay."
            (new_simplifier (Sample.says "[]")))
     = Value (JArr [])
  /\ fst (get_concerns Sample.world (Some "a.txt") Sample.offline)
     = Value (ok (concerns_found (JArr []))).
Proof. repeat split. Qed.

(** ** Parameters of the model calls *)

Lemma calls_none (t : Q) (k : Z) (s s' : simplifier) :
  sent (client s') = sent (client s) -> calls_with t k s s'.
Proof.
  intros H. exists []. split; [|constructor].
  now rewrite H, List.app_nil_r.
Qed.

Lemma calls_one (t : Q) (k : Z) (s s' : simplifier) (r : request) :
  sent (client s') = (sent (client s) ++ [r])%list -> uses t k r ->
  calls_with t k s s'.
Proof.
  intros H U. exists [r]. split; [exact H|].
  constructor; [exact U | constructor].
Qed.

(** C7.  Every request carries the one model identifier; concerns asks
    with temperature 0.5 and at most 2000 tokens, simplify with 0.7 and
    1500, compare with 0.7 and 2000, chat with 0.7 and 1000; and a task
    sends no request but its own. *)
Theorem model_parameters_per_task (w : world) (s : simplifier) :
  (forall legal_text, uses 0.5 2000 (concerns_request legal_text))
  /\ (forall legal_text query,
        uses 0.7 1500 (simplify_request legal_text query))
  /\ (forall n1 t1 n2 t2, uses 0.7 2000 (compare_request n1 t1 n2 t2))
  /\ (forall turns, uses 0.7 1000 (chat_request turns))
  /\ (forall legal_text,
        calls_with 0.5 2000 s
          (snd (highlight_concerning_clauses w legal_text s)))
  /\ (forall legal_text query,
        calls_with 0.7 1500 s (snd (simplify_legal_text legal_text query s)))
  /\ (forall n1 n2, calls_with 0.7 2000 s (snd (compare_documents n1 n2 s)))
  /\ (forall user_message document_context,
        calls_with 0.7 1000 s (snd (chat user_message document_context s))).
Proof.
  split; [|split; [|split; [|split; [|split; [|split; [|split]]]]]];
    try solve [intros; unfold uses; repeat split].
  - intros legal_text.
    apply (calls_one _ _ _ _ (concerns_request legal_text));
      [|unfold uses; repeat split].
    unfold highlight_concerning_clauses, try_except, bind, create, lift.
    destruct (answer s _) as [a|]; [|reflexivity].
    destruct (parse_concerns w a); reflexivity.
  - intros legal_text query.
    apply (calls_one _ _ _ _ (simplify_request legal_text query));
      [|unfold uses; repeat split].
    unfold simplify_legal_text, try_except, create.
    destruct (answer s _); reflexivity.
  - intros n1 n2. unfold compare_documents, bind, documents.
    destruct (loaded_documents s !! n1) as [d1|];
      [|now apply calls_none].
    destruct (loaded_documents s !! n2) as [d2|];
      [|now apply calls_none].
    apply (calls_one _ _ _ _
             (compare_request n1 (Py.slice_to 3000 (text d1))
                n2 (Py.slice_to 3000 (text d2)))); [|unfold uses; repeat split].
    unfold try_except, create. destruct (answer s _); reflexivity.
  - intros user_message document_context.
    apply (calls_one _ _ _ _
             (chat_request
                (conversation_history s
                 ++ [Message "user"
                       (chat_prompt user_message document_context)])));
      [|unfold uses; repeat split].
    unfold chat, try_except, bind, append_history, history, create, ret.
    destruct (answer _ _); reflexivity.
Qed.

(** ** Truncation of the embedded text *)

Lemma slice_to_length (n : nat) (t : string) :
  n <= String.length t -> String.length (Py.slice_to n t) = n.
Proof.
  revert t. induction n as [|n IH]; intros t H; [reflexivity|].
  destruct t as [|c t]; simpl in *; [lia|].
  f_equal. apply IH. lia.
Qed.

Lemma slice_to_prefix (n : nat) (t : string) :
  t = Py.slice_to n t +:+ Py.slice_from n t.
Proof.
  revert t. induction n as [|n IH]; intros t; [reflexivity|].
  destruct t as [|c t]; [reflexivity|].
  cbn [Py.slice_to Py.slice_from]. rewrite (IH t) at 1. reflexivity.
Qed.

Lemma truthy_long (n : nat) (t : string) :
  n < String.length t -> truthy (Some t) = true.
Proof. destruct t; simpl; [lia | reflexivity]. Qed.

(** C5.  A text longer than the budget of its task enters the prompt as
    its first 3000 characters for simplify, with or without a question,
    4000 for concerns, 3000 for each document of compare and 2000 for
    the document context of chat; the rest of the prompt is fixed text,
    names and the question, so the prompt holds that many characters of
    the text and no more. *)
Theorem prompts_embed_truncated_text (t : string) :
  (3000 < String.length t ->
     String.length (Py.slice_to 3000 t) = 3000
     /\ t = Py.slice_to 3000 t +:+ Py.slice_from 3000 t
     /\ simplify_prompt t None
        = summary_prompt_head +:+ Py.slice_to 3000 t +:+ summary_prompt_tail
     /\ String.length (simplify_prompt t None) = 3402
     /\ (forall c q,
           simplify_prompt t (Some (String c q))
           = question_prompt_head +:+ Py.slice_to 3000 t
             +:+ question_prompt_tail (String c q)
           /\ String.length (simplify_prompt t (Some (String c q)))
              = 3288 + String.length (String c q))
     /\ (forall s n1 n2 d1 d2,
           loaded_documents s !! n1 = Some d1 ->
           loaded_documents s !! n2 = Some d2 ->
           text d1 = t -> 3000 < String.length (text d2) ->
           sent (client (snd (compare_documents n1 n2 s)))
           = (sent (client s)
              ++ [compare_request n1 (Py.slice_to 3000 t)
                    n2 (Py.slice_to 3000 (text d2))])%list
           /\ String.length (Py.slice_to 3000 (text d2)) = 3000
           /\ String.length
                (compare_prompt n1 (Py.slice_to 3000 t)
                   n2 (Py.slice_to 3000 (text d2)))
              = 271 + String.length n1 + String.length n2 + 3000 + 3000))
  /\ (4000 < String.length t ->
     String.length (Py.slice_to 4000 t) = 4000
     /\ t = Py.slice_to 4000 t +:+ Py.slice_from 4000 t
     /\ concerns_prompt t
        = concerns_prompt_head +:+ Py.slice_to 4000 t +:+ concerns_prompt_tail
     /\ String.length (concerns_prompt t) = 4594)
  /\ (2000 < String.length t ->
     String.length (Py.slice_to 2000 t) = 2000
     /\ t = Py.slice_to 2000 t +:+ Py.slice_from 2000 t
     /\ (forall user_message,
           chat_prompt user_message (Some t)
           = context_prompt_head +:+ Py.slice_to 2000 t
             +:+ context_prompt_tail user_message
           /\ String.length (chat_prompt user_message (Some t))
              = 2035 + String.length user_message)).
Proof.
  split; [|split].
  - intros H.
    assert (L : String.length (Py.slice_to 3000 t) = 3000)
      by (apply slice_to_length; lia).
    split; [exact L|]. split; [apply slice_to_prefix|].
    split; [reflexivity|]. split; [|split].
    + unfold simplify_prompt. rewrite !PyFacts.app_length, L. reflexivity.
    + intros c q. split; [reflexivity|].
      unfold simplify_prompt, truthy, question_prompt_tail.
      rewrite !PyFacts.app_length, L.
      change (String.length question_prompt_head) with 124.
      cbn [String.length]. lia.
    + intros s n1 n2 d1 d2 H1 H2 E1 H3.
      assert (L2 : String.length (Py.slice_to 3000 (text d2)) = 3000)
        by (apply slice_to_length; lia).
      split; [|split; [exact L2|]].
      * rewrite (compare_loaded s n1 n2 d1 d2 H1 H2), E1.
        unfold try_except, create. destruct (answer s _); reflexivity.
      * unfold compare_prompt, compare_prompt_head, compare_prompt_middle,
          compare_prompt_tail.
        rewrite !PyFacts.app_length, L, L2.
        cbn [String.length]. lia.
  - intros H.
    assert (L : String.length (Py.slice_to 4000 t) = 4000)
      by (apply slice_to_length; lia).
    split; [exact L|]. split; [apply slice_to_prefix|].
    split; [reflexivity|].
    unfold concerns_prompt. rewrite !PyFacts.app_length, L. reflexivity.
  - intros H.
    assert (L : String.length (Py.slice_to 2000 t) = 2000)
      by (apply slice_to_length; lia).
    split; [exact L|]. split; [apply slice_to_prefix|].
    intros user_message.
    unfold chat_prompt. rewrite (truthy_long 2000 t H).
    split; [reflexivity|].
    unfold context_prompt_tail, context_prompt_head.
    rewrite !PyFacts.app_length, L.
    cbn [String.length]. lia.
Qed.

Lemma prompts_embed_truncated_text_witness :
  String.length (Py.slice_to 4000 (Sample.letters 4001)) = 4000
  /\ String.length (concerns_prompt (Sample.letters 4001)) = 4594
  /\ String.length (simplify_prompt (Sample.letters 4001) None) = 3402
  /\ String.length (chat_prompt "What is this?" (Some (Sample.letters 4001)))
     = 2035 + 13.
Proof.
  destruct (prompts_embed_truncated_text (Sample.letters 4001))
    as (A & B & C).
  assert (H : 4000 < String.length (Sample.letters 4001))
    by (apply Nat.ltb_lt; vm_compute; reflexivity).
  destruct (A ltac:(lia)) as (_ & _ & _ & A4 & _).
  destruct (B H) as (B1 & _ & _ & B4).
  destruct (C ltac:(lia)) as (_ & _ & C3).
  split; [exact B1|]. split; [exact B4|]. split; [exact A4|].
  exact (proj2 (C3 "What is this?")).
Defined.

(** ** Loading and uploading documents *)

Lemma load_with_stores (w : world) (reader : string -> M string)
    (file_path : string) (doc_name : option string) (s : simplifier)
    (t : string) :
  reader file_path s = (Value t, s) ->
  load_with w reader file_path doc_name s
  = (Value t,
     snd (store_document (stored_name file_path doc_name)
            {| text := t; path := file_path; loaded_at := clock w |} s)).
Proof.
  intros H. unfold load_with, bind. now rewrite H.
Qed.

(** A reader that fails hands its error text to [load_document], which
    stores it like the text of a document. *)
Lemma load_document_total (w : world) (file_path : string)
    (doc_name : option string) (s : simplifier) :
  exists t, fst (load_document w file_path doc_name s) = Value t.
Proof.
  unfold load_document.
  repeat match goal with
         | |- context [String.eqb ?a ?b] => destruct (String.eqb a b)
         end;
    try (eexists; reflexivity);
    unfold load_with, bind, read_pdf, read_docx, read_txt, try_except, lift.
  - destruct (pdf_pages w file_path); eexists; reflexivity.
  - destruct (docx_paragraphs w file_path); eexists; reflexivity.
  - destruct (utf8_file w file_path); eexists; reflexivity.
Qed.

Lemma load_document_extracted (w : world) (file_path : string)
    (doc_name : option string) (s : simplifier) (t : string) :
  extracted w file_path t ->
  load_document w file_path doc_name s
  = (Value t,
     snd (store_document (stored_name file_path doc_name)
            {| text := t; path := file_path; loaded_at := clock w |} s)).
Proof.
  intros [pages E H | paragraphs E H | t' E H];
    unfold load_document; rewrite E; cbn [String.eqb Ascii.eqb Bool.eqb];
    apply load_with_stores.
  - unfold read_pdf, try_except, bind, lift. now rewrite H.
  - unfold read_docx, try_except, bind, lift. now rewrite H.
  - unfold read_txt, try_except, lift. now rewrite H.
Qed.

(** C3 fails on the code: a PDF that cannot be read is loaded all the
    same, with the error text in the place of its content, whereas a
    file of an unsupported format leaves the documents as they were. *)
Theorem failed_extraction_is_stored :
  fst (load_document Sample.world "uploads/broken.pdf" (Some "lease")
         (new_simplifier Sample.down))
  = Value "Error reading PDF: EOF marker not found"
  /\ loaded_documents
       (snd (load_document Sample.world "uploads/broken.pdf" (Some "lease")
               (new_simplifier Sample.down)))
     !! "lease"
     = Some {| text := "Error reading PDF: EOF marker not found";
               path := "uploads/broken.pdf";
               loaded_at := "2024-05-01 09:30:00" |}
  /\ loaded_documents (new_simplifier Sample.down) !! "lease" = None
  /\ load_document Sample.world "uploads/notes.md" (Some "notes")
       (new_simplifier Sample.down)
     = (Value UNSUPPORTED, new_simplifier Sample.down).
Proof. repeat split. Qed.

(** The same for every file and every reader: the error text of a
    failed extraction is what gets stored. *)
Lemma failed_pdf_is_stored (w : world) (file_path : string)
    (doc_name : option string) (s : simplifier) (e : string) :
  List.last (Py.split "." (Py.lower file_path)) "" = "pdf" ->
  pdf_pages w file_path = Raise e ->
  load_document w file_path doc_name s
  = (Value ("Error reading PDF: " +:+ e),
     snd (store_document (stored_name file_path doc_name)
            {| text := "Error reading PDF: " +:+ e; path := file_path;
               loaded_at := clock w |} s)).
Proof.
  intros E H. unfold load_document. rewrite E.
  cbn [String.eqb Ascii.eqb Bool.eqb]. apply load_with_stores.
  unfold read_pdf, try_except, bind, lift. now rewrite H.
Qed.

(** C10.  Once a file was accepted and saved, the upload handler reports
    a failure exactly when the text that [load_document] returned
    contains "Error"; so a well-formed document whose text contains
    "Error" is answered with status 500 although it is stored. *)
Theorem upload_fails_on_error_substring
    (w : world) (file_filename doc_name : string) (s : simplifier) :
  let filename := secure_filename w file_filename in
  let filepath := Py.path_join UPLOAD_FOLDER filename in
  let name := if truthy (Some doc_name) then doc_name else filename in
  let loaded := load_document w filepath (Some name) s in
  let upload := upload_document w (Some file_filename) doc_name s in
  file_filename <> "" ->
  allowed_file file_filename = true ->
  file_save w filepath = Value tt ->
  (exists document_text r,
      fst loaded = Value document_text
      /\ upload = (Value r, snd loaded)
      /\ failed r = Py.contains "Error" document_text
      /\ (failed r = true -> r = (error document_text, 500%Z))
      /\ (failed r = false ->
          r = ok (uploaded name (String.length document_text))))
  /\ (forall t,
      extracted w filepath t ->
      Py.contains "Error" t = true ->
      fst upload = Value (error t, 500%Z)
      /\ loaded_documents (snd upload) !! stored_name filepath (Some name)
         = Some {| text := t; path := filepath; loaded_at := clock w |}).
Proof.
  intros filename filepath name loaded upload Hne Hok Hsave.
  assert (U : upload
              = match loaded with
                | (Value document_text, s') =>
                    if Py.contains "Error" document_text
                    then (Value (error document_text, 500%Z), s')
                    else (Value (ok (uploaded name
                                       (String.length document_text))), s')
                | (Raise e, s') => (Value (error e, 500%Z), s')
                end).
  { unfold upload, upload_document, guarded, try_except, bind, lift.
    apply String.eqb_neq in Hne. rewrite Hne, Hok. cbn [negb].
    fold filename. fold filepath. rewrite Hsave. fold name. fold loaded.
    destruct loaded as [[document_text|e] s']; [|reflexivity].
    destruct (Py.contains "Error" document_text); reflexivity. }
  split.
  - destruct (load_document_total w filepath (Some name) s) as [t Ht].
    fold loaded in Ht. rewrite U.
    destruct loaded as [[document_text|e] s']; [|discriminate].
    cbn [fst] in Ht. injection Ht as ->.
    destruct (Py.contains "Error" t) eqn:C.
    + exists t, (error t, 500%Z). cbn [fst snd].
      do 2 (split; [reflexivity|]). split; [now rewrite C|].
      split; intros F; [reflexivity | discriminate F].
    + exists t, (ok (uploaded name (String.length t))). cbn [fst snd].
      do 2 (split; [reflexivity|]). split; [now rewrite C|].
      split; intros F; [discriminate F | reflexivity].
  - intros t Ht C. rewrite U. unfold loaded.
    rewrite (load_document_extracted w filepath (Some name) s t Ht), C.
    cbn [fst snd store_document loaded_documents].
    split; [reflexivity|]. apply lookup_insert_eq.
Qed.

Lemma upload_fails_on_error_substring_witness :
  fst (upload_document Sample.world (Some "errors.txt") "policy"
         (new_simplifier Sample.down))
  = Value (error "Errors and omissions excepted.", 500%Z)
  /\ loaded_documents
       (snd (upload_document Sample.world (Some "errors.txt") "policy"
               (new_simplifier Sample.down)))
     !! "policy"
     = Some {| text := "Errors and omissions excepted.";
               path := "frontend/static/uploads/errors.txt";
               loaded_at := "2024-05-01 09:30:00" |}.
Proof.
  assert (N : "errors.txt" <> "") by discriminate.
  destruct (upload_fails_on_error_substring Sample.world "errors.txt"
              "policy" (new_simplifier Sample.down) N eq_refl eq_refl)
    as [_ W].
  exact (W "Errors and omissions excepted."
           (extracted_txt Sample.world "frontend/static/uploads/errors.txt"
              "Errors and omissions excepted." eq_refl eq_refl)
           eq_refl).
Defined.

(** ** Samples *)

Example python_string_samples :
  Py.split "```" "a```b```c" = ["a"; "b"; "c"]
  /\ Py.split "." "archive.tar.GZ" = ["archive"; "tar"; "GZ"]
  /\ rsplit1 "." "archive.tar.GZ" = ["archive.tar"; "GZ"]
  /\ Py.strip (String "010" "  [1] " +:+ String "009" "") = "[1]"
  /\ Py.lower "Lease.PDF" = "lease.pdf"
  /\ Py.basename "frontend/static/uploads/lease.pdf" = "lease.pdf"
  /\ Py.path_join "frontend/static/uploads" "lease.pdf"
     = "frontend/static/uploads/lease.pdf"
  /\ allowed_file "Lease.PDF" = true
  /\ allowed_file "notes.md" = false
  /\ allowed_file "README" = false.
Proof. repeat split. Qed.

(** Texts outside the reading of a fenced block: a fence that is never
    closed still opens a region, and a closing fence of four backticks
    before a second json marker spoils it. *)
Example irregular_fences :
  parse_concerns Sample.world "```json[1]" = Value (JArr [JInt 1])
  /\ parse_concerns Sample.world "```json[1]```" = Value (JArr [JInt 1])
  /\ parse_concerns Sample.world "```json[1]````json"
     = Raise "Expecting value: line 1 column 1 (char 0)"
  /\ parse_concerns Sample.world "```[1]```[1]" = Value (JArr [JInt 1])
  /\ fst (highlight_concerning_clauses Sample.world "Tenant shall pay."
            (new_simplifier (Sample.says "```json[1]````json")))
     = Value (JArr []).
Proof. repeat split. Qed.

(** A successful upload answers with the name and the length of the
    text. *)
Example upload_sample :
  fst (upload_document Sample.world (Some "lease.txt") ""
         (new_simplifier Sample.down))
  = Value (ok (uploaded "lease.txt" 30))
  /\ fst (upload_document Sample.world (Some "lease.exe") ""
            (new_simplifier Sample.down))
     = Value (error "Invalid file type. Use PDF, DOCX, or TXT", 400%Z)
  /\ fst (upload_document Sample.world None ""
            (new_simplifier Sample.down))
     = Value (error "No file provided", 400%Z).
Proof. repeat split. Qed.

(** * Further properties of the code *)

(** ** Loading *)

(** X1.  Loading a file never touches the client, the conversation or the
    current analysis, and changes at most the entry under the name it
    stores. *)
Theorem load_document_changes_one_entry
    (w : world) (file_path : string) (doc_name : option string)
    (s : simplifier) :
  let s' := snd (load_document w file_path doc_name s) in
  client s' = client s
  /\ conversation_history s' = conversation_history s
  /\ current_analysis s' = current_analysis s
  /\ (forall n, n <> stored_name file_path doc_name ->
        loaded_documents s' !! n = loaded_documents s !! n).
Proof.
  assert (F : forall reader,
             (forall s0, snd (reader file_path s0) = s0) ->
             let s' := snd (load_with w reader file_path doc_name s) in
             client s' = client s
             /\ conversation_history s' = conversation_history s
             /\ current_analysis s' = current_analysis s
             /\ (forall n, n <> stored_name file_path doc_name ->
                   loaded_documents s' !! n = loaded_documents s !! n)).
  { intros reader R. unfold load_with, bind.
    specialize (R s). destruct (reader file_path s) as [[t|e] s0];
      cbn [snd] in R; subst s0; cbn.
    - repeat split. intros n Hn. now apply lookup_insert_ne.
    - repeat split. }
  unfold load_document.
  destruct (String.eqb _ "pdf");
    [apply F; intros s0; unfold read_pdf, try_except, bind, lift;
     now destruct (pdf_pages w file_path)|].
  destruct (String.eqb _ "docx");
    [apply F; intros s0; unfold read_docx, try_except, bind, lift;
     now destruct (docx_paragraphs w file_path)|].
  destruct (String.eqb _ "txt");
    [apply F; intros s0; unfold read_txt, try_except, lift;
     now destruct (utf8_file w file_path)|].
  cbn. repeat split.
Qed.

(** X2.  A document loaded again under the same name replaces the earlier
    one: the documents are as if only the second load had happened. *)
Theorem reload_overwrites
    (w1 w2 : world) (path1 path2 name t1 t2 : string) (s : simplifier) :
  extracted w1 path1 t1 ->
  extracted w2 path2 t2 ->
  let s1 := snd (load_document w1 path1 (Some name) s) in
  let s2 := snd (load_document w2 path2 (Some name) s1) in
  let key := stored_name path2 (Some name) in
  stored_name path1 (Some name) = key ->
  fst (load_document w2 path2 (Some name) s1) = Value t2
  /\ loaded_documents s2 !! key
     = Some {| text := t2; path := path2; loaded_at := clock w2 |}
  /\ loaded_documents s2
     = <[key := {| text := t2; path := path2; loaded_at := clock w2 |}]>
         (loaded_documents s).
Proof.
  intros H1 H2 s1 s2 key K. unfold s2, s1.
  rewrite (load_document_extracted w1 path1 (Some name) s t1 H1).
  rewrite (load_document_extracted w2 path2 (Some name) _ t2 H2).
  cbn [fst snd store_document loaded_documents]. fold key. rewrite K.
  split; [reflexivity|]. split; [apply lookup_insert_eq|].
  apply insert_insert_eq.
Qed.

Lemma reload_overwrites_witness :
  loaded_documents
    (snd (load_document Sample2.world "b/lease.txt" (Some "lease")
            (snd (load_document Sample.world "a/lease.pdf" (Some "lease")
                    (new_simplifier Sample.down)))))
  !! "lease"
  = Some {| text := "Tenant shall pay $500 monthly.";
            path := "b/lease.txt";
            loaded_at := "2024-05-02 10:00:00" |}.
Proof.
  exact (proj1 (proj2
    (reload_overwrites Sample.world Sample2.world
       "a/lease.pdf" "b/lease.txt" "lease"
       "Tenant shall pay $500 monthly." "Tenant shall pay $500 monthly."
       (new_simplifier Sample.down)
       (extracted_pdf Sample.world "a/lease.pdf"
          ["Tenant shall pay $500 monthly."] eq_refl eq_refl)
       (extracted_txt Sample2.world "b/lease.txt"
          "Tenant shall pay $500 monthly." eq_refl eq_refl)
       eq_refl))).
Defined.

(** ** Uploading *)

(** X3.  An upload that is refused, for want of a file, of a file name or of
    an allowed extension, is answered with status 400, and one whose
    file cannot be saved with status 500 and the message of the failure;
    in each case the simplifier stays as it was. *)
Theorem refused_upload_changes_nothing
    (w : world) (doc_name : string) (s : simplifier) :
  upload_document w None doc_name s
  = (Value (error "No file provided", 400%Z), s)
  /\ upload_document w (Some "") doc_name s
     = (Value (error "No file selected", 400%Z), s)
  /\ (forall f, f <> "" -> allowed_file f = false ->
        upload_document w (Some f) doc_name s
        = (Value (error "Invalid file type. Use PDF, DOCX, or TXT", 400%Z),
           s))
  /\ (forall f e, f <> "" -> allowed_file f = true ->
        file_save w (Py.path_join UPLOAD_FOLDER (secure_filename w f))
        = Raise e ->
        upload_document w (Some f) doc_name s = (Value (error e, 500%Z), s)).
Proof.
  split; [reflexivity|]. split; [reflexivity|]. split.
  - intros f Hf Ha. apply String.eqb_neq in Hf.
    unfold upload_document, guarded, try_except, ret.
    now rewrite Hf, Ha.
  - intros f e Hf Ha Hs. apply String.eqb_neq in Hf.
    unfold upload_document, guarded, try_except, bind, lift, ret.
    now rewrite Hf, Ha, Hs.
Qed.

Lemma refused_upload_changes_nothing_witness :
  upload_document Sample2.world (Some "lease.exe") "lease"
    Sample.library
  = (Value (error "Invalid file type. Use PDF, DOCX, or TXT", 400%Z),
     Sample.library)
  /\ upload_document Sample2.world (Some "huge.pdf") "lease"
       Sample.library
     = (Value (error "No space left on device", 500%Z), Sample.library).
Proof.
  destruct (refused_upload_changes_nothing Sample2.world "lease"
              Sample.library) as (_ & _ & A & B).
  split.
  - apply A; [discriminate | reflexivity].
  - apply B; [discriminate | reflexivity | reflexivity].
Defined.

(** X4.  When the saved path has none of the three extensions, which happens
    when [secure_filename] altered the accepted name, the loader returns
    its message about the format; the message lacks the word "Error",
    so the upload is answered as a success of 60 characters, and no
    document is stored. *)
Theorem upload_of_lost_extension_reports_success
    (w : world) (f doc_name : string) (s : simplifier) :
  let filename := secure_filename w f in
  let filepath := Py.path_join UPLOAD_FOLDER filename in
  let name := if truthy (Some doc_name) then doc_name else filename in
  let extension := List.last (Py.split "." (Py.lower filepath)) "" in
  f <> "" ->
  allowed_file f = true ->
  file_save w filepath = Value tt ->
  extension <> "pdf" -> extension <> "docx" -> extension <> "txt" ->
  upload_document w (Some f) doc_name s
  = (Value (ok (uploaded name 60)), s).
Proof.
  intros filename filepath name extension Hf Ha Hs E1 E2 E3.
  apply String.eqb_neq in Hf, E1, E2, E3.
  unfold upload_document, guarded, try_except, bind, lift.
  rewrite Hf, Ha. cbn [negb]. fold filename. fold filepath. rewrite Hs.
  unfold load_document. fold extension. rewrite E1, E2, E3.
  reflexivity.
Qed.

Lemma upload_of_lost_extension_reports_success_witness :
  upload_document Sample2.world (Some ".txt") "" Sample.library
  = (Value (ok (uploaded "txt" 60)), Sample.library).
Proof.
  apply (upload_of_lost_extension_reports_success Sample2.world ".txt" ""
           Sample.library); try discriminate; reflexivity.
Defined.

(** ** The concerns route *)

Lemma highlight_sends_one_request (w : world) (legal_text : string)
    (s : simplifier) :
  snd (highlight_concerning_clauses w legal_text s)
  = after_request (concerns_request legal_text) s.
Proof.
  unfold highlight_concerning_clauses, try_except, bind, create, lift.
  destruct (answer s _) as [a|]; [|reflexivity].
  now destruct (parse_concerns w a).
Qed.

Lemma highlight_value (w : world) (legal_text : string) (s : simplifier) :
  exists v, fst (highlight_concerning_clauses w legal_text s) = Value v.
Proof.
  unfold highlight_concerning_clauses, try_except, bind, create, lift.
  destruct (answer s _) as [a|]; [|eexists; reflexivity].
  destruct (parse_concerns w a); eexists; reflexivity.
Qed.

Lemma get_concerns_loaded (w : world) (n : string) (d : document)
    (s : simplifier) (v : json) :
  n <> "" ->
  loaded_documents s !! n = Some d ->
  fst (highlight_concerning_clauses w (text d) s) = Value v ->
  get_concerns w (Some n) s
  = match concerns_report w v with
    | Value report =>
        (Value (ok (concerns_found v)),
         snd (set_analysis report
                (after_request (concerns_request (text d)) s)))
    | Raise e =>
        (Value (error e, 500%Z),
         after_request (concerns_request (text d)) s)
    end.
Proof.
  intros Hn Hd Hv.
  unfold get_concerns, guarded, try_except, bind, documents, lift, ret.
  unfold named_document. destruct n as [|c n]; [congruence|].
  cbn [truthy]. rewrite Hd.
  pose proof (highlight_sends_one_request w (text d) s) as S.
  destruct (highlight_concerning_clauses w (text d) s) as [r s1].
  cbn [fst snd] in Hv, S. subst r s1.
  now destruct (concerns_report w v).
Qed.

Lemma subscript_object (fields : list (string * json)) (k : string) :
  (exists v, subscript (JObj fields) k = Value v)
  <-> existsb (fun kv => String.eqb (fst kv) k) fields = true.
Proof.
  unfold subscript. induction fields as [|kv fields IH]; cbn [find existsb].
  - split; [intros [v H]; discriminate | discriminate].
  - destruct (String.eqb (fst kv) k); cbn [orb].
    + split; [reflexivity | intros _; eexists; reflexivity].
    + exact IH.
Qed.

Lemma concern_lines_complete (w : world) (c : json) :
  (exists t, concern_lines w c = Value t) <-> complete c = true.
Proof.
  destruct c as [| b | n | x | x | items | fields];
    try (split; [intros [t H]; discriminate | discriminate]).
  unfold complete, CONCERN_KEYS. cbn [forallb]. rewrite andb_true_r.
  rewrite !andb_true_iff, <- !subscript_object.
  unfold concern_lines. split.
  - intros [t H].
    destruct (subscript (JObj fields) "severity"); [|discriminate].
    destruct (subscript (JObj fields) "clause"); [|discriminate].
    destruct (subscript (JObj fields) "concern"); [|discriminate].
    destruct (subscript (JObj fields) "recommendation"); [|discriminate].
    repeat split; eexists; reflexivity.
  - intros ([v1 ->] & [v2 ->] & [v3 ->] & [v4 ->]). eexists; reflexivity.
Qed.

Lemma all_values_complete (w : world) (cs : list json) :
  (exists ts, all_values (concern_lines w) cs = Value ts)
  <-> forallb complete cs = true.
Proof.
  induction cs as [|c cs IH]; cbn [all_values forallb].
  - split; [reflexivity | intros _; eexists; reflexivity].
  - rewrite andb_true_iff, <- IH, <- (concern_lines_complete w c). split.
    + intros [ts H]. destruct (concern_lines w c); [|discriminate].
      destruct (all_values (concern_lines w) cs); [|discriminate].
      split; eexists; reflexivity.
    + intros [[t ->] [ts ->]]. eexists; reflexivity.
Qed.

(** X6.  The concerns route reports a list exactly when every entry is an
    object with the keys severity, clause, concern and recommendation.
    Then it answers with the list and keeps a report that opens with
    the title; otherwise it answers with status 500 and leaves the
    current analysis as it was.  The request was sent either way. *)
Theorem concerns_route_needs_complete_entries
    (w : world) (n : string) (d : document) (s : simplifier)
    (cs : list json) :
  n <> "" ->
  loaded_documents s !! n = Some d ->
  fst (highlight_concerning_clauses w (text d) s) = Value (JArr cs) ->
  let sent_state := after_request (concerns_request (text d)) s in
  (forallb complete cs = true ->
     exists blocks,
       get_concerns w (Some n) s
       = (Value (ok (concerns_found (JArr cs))),
          snd (set_analysis
                 (REPORT_TITLE +:+ Py.join (String "010" "") blocks)
                 sent_state))
       /\ List.length blocks = List.length cs)
  /\ (forallb complete cs = false ->
      exists e,
        get_concerns w (Some n) s = (Value (error e, 500%Z), sent_state)
        /\ current_analysis sent_state = current_analysis s).
Proof.
  intros Hn Hd Hv sent_state.
  rewrite (get_concerns_loaded w n d s (JArr cs) Hn Hd Hv).
  unfold concerns_report, iterate. split.
  - intros C. apply (all_values_complete w) in C as [blocks B].
    rewrite B. exists blocks. split; [reflexivity|].
    clear -B. revert blocks B.
    induction cs as [|c cs IH]; intros blocks B; cbn [all_values] in B.
    + now injection B as <-.
    + destruct (concern_lines w c); [|discriminate].
      destruct (all_values (concern_lines w) cs) as [ts|]; [|discriminate].
      injection B as <-. cbn [List.length]. f_equal. now apply IH.
  - intros C.
    destruct (all_values (concern_lines w) cs) as [ts|e] eqn:A.
    + assert (forallb complete cs = true)
        by (apply (all_values_complete w); now exists ts).
      congruence.
    + exists e. split; reflexivity.
Qed.

Lemma concerns_route_needs_complete_entries_witness :
  fst (get_concerns Sample2.reader (Some "a.txt")
         (Sample2.library (Sample.says "[concern]")))
  = Value (ok (concerns_found Sample2.one_concern))
  /\ exists e,
       get_concerns Sample2.reader (Some "a.txt")
         (Sample2.library (Sample.says "[1]"))
       = (Value (error e, 500%Z),
          after_request
            (concerns_request "Tenant shall pay $500 monthly.")
            (Sample2.library (Sample.says "[1]"))).
Proof.
  assert (N : "a.txt" <> "") by discriminate.
  destruct (concerns_route_needs_complete_entries Sample2.reader "a.txt"
              _ (Sample2.library (Sample.says "[concern]")) _ N
              eq_refl eq_refl)
    as [A _].
  destruct (concerns_route_needs_complete_entries Sample2.reader "a.txt"
              _ (Sample2.library (Sample.says "[1]")) _ N
              eq_refl eq_refl)
    as [_ B].
  destruct (A eq_refl) as (blocks & EA & _).
  destruct (B eq_refl) as (e & EB & _).
  split.
  - now rewrite EA.
  - exists e. exact EB.
Defined.

Lemma save_pdf_with_analysis (pr : printer) (filename : option string)
    (s : simplifier) (c : ascii) (a : string) :
  current_analysis s = Some (String c a) ->
  save_pdf pr filename s <> export_error "No analysis to save" 400.
Proof.
  intros H. unfold save_pdf. rewrite H.
  destruct (save_to_pdf pr _ _) as [p|x]; [|discriminate].
  destruct (Py.startswith "Error" p); discriminate.
Qed.

(** X7.  When the model call of the concerns route fails, the route still
    answers with success and the empty list, and puts a report that
    holds the title alone in the place of the current analysis; an
    export that follows is not refused for want of an analysis. *)
Theorem failed_concerns_replace_the_analysis
    (w : world) (pr : printer) (n : string) (d : document)
    (s : simplifier) (e : string) (filename : option string) :
  n <> "" ->
  loaded_documents s !! n = Some d ->
  answer s (concerns_request (text d)) = Raise e ->
  let s' := snd (get_concerns w (Some n) s) in
  fst (get_concerns w (Some n) s) = Value (ok (concerns_found (JArr [])))
  /\ current_analysis s' = Some REPORT_TITLE
  /\ save_pdf pr filename s' <> export_error "No analysis to save" 400.
Proof.
  intros Hn Hd He s'.
  assert (Hv : fst (highlight_concerning_clauses w (text d) s)
               = Value (JArr [])).
  { unfold highlight_concerning_clauses, try_except, bind, create.
    now rewrite He. }
  assert (G : get_concerns w (Some n) s
              = (Value (ok (concerns_found (JArr []))),
                 snd (set_analysis REPORT_TITLE
                        (after_request (concerns_request (text d)) s)))).
  { now rewrite (get_concerns_loaded w n d s (JArr []) Hn Hd Hv). }
  unfold s'. rewrite G. cbn [fst snd set_analysis current_analysis].
  split; [reflexivity|]. split; [reflexivity|].
  now apply (save_pdf_with_analysis pr filename _ "C"
               (String.substring 1 28 REPORT_TITLE)).
Qed.

Lemma failed_concerns_replace_the_analysis_witness :
  fst (get_concerns Sample2.reader (Some "a.txt")
         (Sample2.library Sample.down))
  = Value (ok (concerns_found (JArr [])))
  /\ current_analysis
       (snd (get_concerns Sample2.reader (Some "a.txt")
               (Sample2.library Sample.down)))
     = Some REPORT_TITLE.
Proof.
  assert (N : "a.txt" <> "") by discriminate.
  destruct (failed_concerns_replace_the_analysis Sample2.reader
              Sample2.printer "a.txt" _ (Sample2.library Sample.down)
              "Connection error." None N eq_refl eq_refl)
    as (A & B & _).
  split; [exact A | exact B].
Defined.

(** ** The analyze route *)

(** X8.  For a loaded document the analyze route always answers with success:
    the analysis is the text of the model, or the error text when the
    model call failed, and it becomes the current analysis. *)
Theorem analyze_reports_failure_as_analysis
    (n : string) (d : document) (s : simplifier) :
  n <> "" ->
  loaded_documents s !! n = Some d ->
  let analysis :=
    match answer s (simplify_request (text d) None) with
    | Value out => out
    | Raise e => "Error calling API: " +:+ e
    end in
  analyze_document (Some n) s
  = (Value (ok (analysed analysis)),
     snd (set_analysis analysis
            (after_request (simplify_request (text d) None) s)))
  /\ current_analysis (snd (analyze_document (Some n) s)) = Some analysis.
Proof.
  intros Hn Hd analysis.
  assert (A : analyze_document (Some n) s
              = (Value (ok (analysed analysis)),
                 snd (set_analysis analysis
                        (after_request (simplify_request (text d) None) s)))).
  { unfold analyze_document, guarded, try_except, bind, documents, ret.
    unfold named_document. destruct n as [|c n]; [congruence|].
    cbn [truthy]. rewrite Hd.
    unfold simplify_legal_text, try_except, create, analysis, ret.
    now destruct (answer s _). }
  split; [exact A | now rewrite A].
Qed.

Lemma analyze_reports_failure_as_analysis_witness :
  analyze_document (Some "a.txt") (Sample2.library Sample.down)
  = (Value (ok (analysed "Error calling API: Connection error.")),
     snd (set_analysis "Error calling API: Connection error."
            (after_request
               (simplify_request "Tenant shall pay $500 monthly." None)
               (Sample2.library Sample.down)))).
Proof.
  assert (N : "a.txt" <> "") by discriminate.
  exact (proj1 (analyze_reports_failure_as_analysis "a.txt" Sample2.lease
                  (Sample2.library Sample.down) N eq_refl)).
Defined.

(** ** The chat route and the conversation *)

(** X9.  The chat route gives the text of the named document to [chat] as
    context; a loaded document whose text is empty gives no context, as
    if no document had been named. *)
Theorem chat_route_passes_document_text
    (message n : string) (d : document) (s : simplifier) :
  n <> "" ->
  loaded_documents s !! n = Some d ->
  snd (api_chat message (Some n) s) = snd (chat message (Some (text d)) s)
  /\ (exists r,
        fst (chat message (Some (text d)) s) = Value r
        /\ fst (api_chat message (Some n) s) = Value (ok (replied r)))
  /\ (text d = "" -> api_chat message (Some n) s = api_chat message None s).
Proof.
  intros Hn Hd.
  assert (A : api_chat message (Some n) s
              = guarded (response <- chat message (Some (text d)) ;;
                         ret (ok (replied response))) s).
  { unfold api_chat, guarded, try_except, bind, documents, named_document.
    destruct n as [|c n]; [congruence|]. cbn [truthy]. now rewrite Hd. }
  assert (V : exists r s1, chat message (Some (text d)) s = (Value r, s1)).
  { unfold chat, try_except, bind, append_history, history, create, ret.
    destruct (answer _ _); eexists; eexists; reflexivity. }
  destruct V as (r & s1 & V).
  rewrite A. unfold guarded, try_except, bind, ret. rewrite V.
  cbn [fst snd]. split; [reflexivity|]. split.
  - exists r. split; reflexivity.
  - intros E. unfold api_chat, guarded, try_except, bind, documents,
      named_document, ret.
    rewrite E in V. unfold chat, chat_prompt in V |- *. cbn [truthy] in V.
    unfold chat, chat_prompt in V. now rewrite V.
Qed.

Lemma chat_route_passes_document_text_witness :
  fst (api_chat "What is this?" (Some "a.txt")
         (Sample2.library (Sample.says "It is a lease.")))
  = Value (ok (replied "It is a lease."))
  /\ conversation_history
       (snd (api_chat "What is this?" (Some "a.txt")
               (Sample2.library (Sample.says "It is a lease."))))
     = [Message "user"
          (context_prompt_head +:+ "Tenant shall pay $500 monthly."
           +:+ context_prompt_tail "What is this?");
        Message "assistant" "It is a lease."].
Proof.
  assert (N : "a.txt" <> "") by discriminate.
  destruct (chat_route_passes_document_text "What is this?" "a.txt"
              Sample2.lease (Sample2.library (Sample.says "It is a lease."))
              N eq_refl) as (A & (r & B1 & B2) & _).
  split.
  - rewrite B2. f_equal. f_equal. f_equal.
    injection B1 as <-. reflexivity.
  - rewrite A. reflexivity.
Defined.

Lemma chat_outcome (s : simplifier) (user_message : string)
    (document_context : option string) :
  let p := Message "user" (chat_prompt user_message document_context) in
  let r := chat_request (conversation_history s ++ [p]) in
  snd (chat user_message document_context s)
  = match answer s r with
    | Value a =>
        with_turn (Message "assistant" a) (after_request r (with_turn p s))
    | Raise _ => after_request r (with_turn p s)
    end.
Proof.
  intros p r. destruct (answer s r) as [a|e] eqn:A.
  - now rewrite (chat_success s user_message document_context a A).
  - now rewrite (chat_failure s user_message document_context e A).
Qed.

(** X10.  A conversation only ever adds to the history: after any list of
    chats the old history is a prefix of the new one, which has one more
    turn for every call and one more for every call that the service
    answered; every call sent one request; the documents and the
    current analysis are as before. *)
Theorem conversation_only_grows
    (calls : list (string * option string)) (s : simplifier) :
  let s' := chats calls s in
  (exists turns,
      conversation_history s' = (conversation_history s ++ turns)%list
      /\ List.length turns = List.length calls + answered calls s)
  /\ List.length (sent (client s'))
     = List.length (sent (client s)) + List.length calls
  /\ loaded_documents s' = loaded_documents s
  /\ current_analysis s' = current_analysis s.
Proof.
  revert s. induction calls as [|[m c] calls IH]; intros s.
  - cbn. repeat split; try lia. exists []. split; [|reflexivity].
    now rewrite List.app_nil_r.
  - cbn [chats answered List.length].
    pose proof (chat_outcome s m c) as O. cbv zeta in O.
    destruct (IH (snd (chat m c s))) as ((turns & H1 & H2) & H3 & H4 & H5).
    clear IH. rewrite H1, H3, H4, H5. clear H1 H3 H4 H5.
    set (p := Message "user" (chat_prompt m c)) in *.
    set (r := chat_request (conversation_history s ++ [p])) in *.
    destruct (answer s r) as [a|e]; rewrite O in *;
      cbn [with_turn after_request conversation_history client sent
           loaded_documents current_analysis].
    + repeat split.
      * exists (p :: Message "assistant" a :: turns).
        split; [now rewrite <- !List.app_assoc|]. cbn. lia.
      * rewrite List.length_app. cbn. lia.
    + repeat split.
      * exists (p :: turns).
        split; [now rewrite <- !List.app_assoc|]. cbn. lia.
      * rewrite List.length_app. cbn. lia.
Qed.

(** X11.  The question of a failed chat stays in the history and goes out
    again with the next chat: the next request carries the system
    message, the old history and the two user turns one after the
    other. *)
Theorem failed_question_is_sent_again
    (s : simplifier) (m1 m2 : string) (c1 c2 : option string) (e : string) :
  let p1 := Message "user" (chat_prompt m1 c1) in
  let p2 := Message "user" (chat_prompt m2 c2) in
  let s1 := snd (chat m1 c1 s) in
  answer s (chat_request (conversation_history s ++ [p1])) = Raise e ->
  exists system,
    role system = "system"
    /\ sent (client (snd (chat m2 c2 s1)))
       = (sent (client s)
          ++ [chat_request (conversation_history s ++ [p1]);
              chat_request (conversation_history s ++ [p1; p2])])%list
    /\ messages (chat_request (conversation_history s ++ [p1; p2]))
       = (system :: conversation_history s ++ [p1; p2])%list.
Proof.
  intros p1 p2 s1 H.
  assert (E1 : s1 = after_request
                      (chat_request (conversation_history s ++ [p1]))
                      (with_turn p1 s)).
  { unfold s1. now rewrite (chat_failure s m1 c1 e H). }
  eexists. split; [|split]; [| |reflexivity]; [reflexivity|].
  rewrite (chat_outcome s1 m2 c2). fold p2. rewrite E1.
  cbn [after_request with_turn conversation_history client sent].
  rewrite <- ?List.app_assoc. cbn [List.app].
  destruct (answer (after_request _ _) _);
    cbn [with_turn after_request client sent];
    rewrite <- ?List.app_assoc; reflexivity.
Qed.

Lemma failed_question_is_sent_again_witness :
  exists system,
    role system = "system"
    /\ sent (client (snd (chat "And the rent?" None
                            (snd (chat "What is this?" None
                                    (new_simplifier Sample.down))))))
       = [chat_request [Message "user" "What is this?"];
          chat_request [Message "user" "What is this?";
                        Message "user" "And the rent?"]]
    /\ messages (chat_request [Message "user" "What is this?";
                               Message "user" "And the rent?"])
       = [system; Message "user" "What is this?";
          Message "user" "And the rent?"].
Proof.
  exact (failed_question_is_sent_again (new_simplifier Sample.down)
           "What is this?" "And the rent?" None None "Connection error."
           eq_refl).
Defined.

(** ** More facts about Python strings *)

Module PyFacts2.
Import Py PyFacts.

#[local] Arguments String.append !s1 s2 : simpl nomatch.

Lemma rstrip_idem (s : string) : rstrip (rstrip s) = rstrip s.
Proof.
  induction s as [|c s IH]; [reflexivity|].
  cbn [rstrip]. destruct (rstrip s) as [|d r] eqn:E.
  - destruct (is_space c) eqn:Hc; [reflexivity|].
    cbn [rstrip]. now rewrite Hc.
  - change (rstrip (String c (String d r)))
      with (match rstrip (String d r) with
            | "" => if is_space c then "" else String c ""
            | x => String c x
            end).
    now rewrite IH.
Qed.

Lemma lstrip_rstrip (s : string) : lstrip (rstrip s) = rstrip (lstrip s).
Proof.
  induction s as [|c s IH]; [reflexivity|].
  cbn [rstrip lstrip]. destruct (rstrip s) as [|d r] eqn:E.
  - destruct (is_space c) eqn:Hc.
    + now rewrite <- IH.
    + cbn [lstrip rstrip]. now rewrite ?Hc, ?E, ?Hc.
  - destruct (is_space c) eqn:Hc.
    + cbn [lstrip]. now rewrite ?Hc, <- IH.
    + cbn [lstrip rstrip]. now rewrite ?Hc, ?E.
Qed.

Lemma strip_rstrip (s : string) : strip (rstrip s) = strip s.
Proof. unfold strip. now rewrite lstrip_rstrip, rstrip_idem. Qed.

Lemma lstrip_idem (s : string) : lstrip (lstrip s) = lstrip s.
Proof.
  induction s as [|c s IH]; [reflexivity|].
  cbn [lstrip]. destruct (is_space c) eqn:Hc; [exact IH|].
  cbn [lstrip]. now rewrite Hc.
Qed.

Lemma strip_idem (s : string) : strip (strip s) = strip s.
Proof.
  unfold strip. now rewrite lstrip_rstrip, lstrip_idem, rstrip_idem.
Qed.

Lemma rstrip_json_fence (x z : string) :
  rstrip (x +:+ JSON_FENCE +:+ z) = x +:+ JSON_FENCE +:+ rstrip z.
Proof.
  change (JSON_FENCE +:+ z) with ("```jso" +:+ String "n" z).
  change (JSON_FENCE +:+ rstrip z) with ("```jso" +:+ String "n" (rstrip z)).
  rewrite <- !app_assoc. now apply rstrip_keep.
Qed.

Lemma contains_rstrip_false (sep s : string) :
  contains sep s = false -> contains sep (rstrip s) = false.
Proof.
  intros H. destruct (contains sep (rstrip s)) eqn:E; [|reflexivity].
  apply contains_rstrip in E. congruence.
Qed.

Lemma first_piece_absent (sep s : string) :
  contains sep s = false -> first_piece sep s = s.
Proof.
  intros H. unfold first_piece. rewrite contains_cut in H.
  now destruct (cut sep s) as [[a b]|].
Qed.

End PyFacts2.

(** ** Output that breaks off *)

(** X12.  When the text of the model opens a block and breaks off before the
    closing fence, the concerns task parses what follows the opening
    marker, "```json" if the text has it and "```" otherwise. *)
Theorem unclosed_fence_is_parsed
    (w : world) (legal_text : string) (s : simplifier)
    (raw before rest : string) :
  answer s (concerns_request legal_text) = Value raw ->
  Py.contains FENCE rest = false ->
  first_occurrence JSON_FENCE raw before rest
  \/ (Py.contains JSON_FENCE raw = false
      /\ first_occurrence FENCE raw before rest) ->
  fst (highlight_concerning_clauses w legal_text s)
  = Value (parsed_or_empty w (Py.strip rest)).
Proof.
  intros Hraw NF Hocc.
  assert (P : parse_concerns w raw = json_loads w (Py.strip rest)).
  { assert (NF' : Py.contains FENCE (Py.rstrip rest) = false)
      by now apply PyFacts2.contains_rstrip_false.
    assert (NJ' : Py.contains JSON_FENCE (Py.rstrip rest) = false).
    { destruct (Py.contains JSON_FENCE (Py.rstrip rest)) eqn:E;
        [|reflexivity].
      apply (PyFacts.contains_longer FENCE "json") in E. congruence. }
    unfold parse_concerns. change "```json" with JSON_FENCE.
    change "```" with FENCE.
    destruct Hocc as [O | [NJ O]]; apply PyFacts.cut_first in O.
    - pose proof (PyFacts.cut_lstrip "`" "``json" _ _ _ eq_refl O) as L.
      change (String "`" "``json") with JSON_FENCE in L.
      assert (S : Py.cut JSON_FENCE (Py.strip raw)
                  = Some (Py.lstrip before, Py.rstrip rest)).
      { unfold Py.strip. rewrite (PyFacts.cut_sound _ _ _ _ L).
        rewrite PyFacts2.rstrip_json_fence.
        apply (PyFacts.cut_retarget _ _ rest).
        now rewrite <- (PyFacts.cut_sound _ _ _ _ L). }
      rewrite PyFacts.contains_cut, S.
      rewrite (index_nth _ _ _
                 (PyFacts.split_second _ _ _ _ JSON_FENCE_nonempty S)).
      rewrite (index_nth _ _ _ (PyFacts.split_head FENCE _ FENCE_nonempty)).
      rewrite (PyFacts2.first_piece_absent JSON_FENCE _ NJ').
      rewrite (PyFacts2.first_piece_absent FENCE _ NF').
      now rewrite PyFacts2.strip_rstrip.
    - pose proof (PyFacts.cut_lstrip "`" "``" _ _ _ eq_refl O) as L.
      change (String "`" "``") with FENCE in L.
      assert (S : Py.cut FENCE (Py.strip raw)
                  = Some (Py.lstrip before, Py.rstrip rest)).
      { unfold Py.strip. rewrite (PyFacts.cut_sound _ _ _ _ L).
        rewrite PyFacts.rstrip_fence.
        apply (PyFacts.cut_retarget _ _ rest).
        now rewrite <- (PyFacts.cut_sound _ _ _ _ L). }
      rewrite (PyFacts.contains_strip _ _ NJ).
      rewrite PyFacts.contains_cut, S.
      rewrite (index_nth _ _ _
                 (PyFacts.split_second _ _ _ _ FENCE_nonempty S)).
      rewrite (index_nth _ _ _ (PyFacts.split_head FENCE _ FENCE_nonempty)).
      rewrite PyFacts.first_piece_clean by exact FENCE_nonempty.
      rewrite (PyFacts2.first_piece_absent FENCE _ NF').
      now rewrite PyFacts2.strip_rstrip. }
  unfold highlight_concerning_clauses, try_except, bind, create, lift, ret.
  rewrite Hraw, P. unfold parsed_or_empty.
  now destruct (json_loads w (Py.strip rest)).
Qed.

Lemma unclosed_fence_is_parsed_witness :
  fst (highlight_concerning_clauses Sample.world "Tenant shall pay."
         (new_simplifier (Sample.says "Here you are: ```json [1] ")))
  = Value (JArr [JInt 1]).
Proof.
  rewrite (unclosed_fence_is_parsed Sample.world "Tenant shall pay."
             (new_simplifier (Sample.says "Here you are: ```json [1] "))
             "Here you are: ```json [1] " "Here you are: " " [1] "
             eq_refl eq_refl
             (or_introl
                (proj1 (PyFacts.cut_first JSON_FENCE
                          "Here you are: ```json [1] "
                          "Here you are: " " [1] ") eq_refl))).
  reflexivity.
Defined.

(** ** Splitting at one character *)

Module SplitChar.
Import Py PyFacts.

#[local] Arguments String.append !s1 s2 : simpl nomatch.

Lemma one_nonempty (c : ascii) : String c "" <> "".
Proof. discriminate. Qed.

Lemma startswith_one (c d : ascii) (s : string) :
  startswith (String c "") (String d s) = Ascii.eqb c d.
Proof. cbn [startswith]. apply andb_true_r. Qed.

Lemma contains_one (c d : ascii) (s : string) :
  contains (String c "") (String d s)
  = Ascii.eqb c d || contains (String c "") s.
Proof. cbn [contains]. now rewrite startswith_one. Qed.

Lemma contains_one_empty (c : ascii) : contains (String c "") "" = false.
Proof. reflexivity. Qed.

Lemma split_clean (sep s : string) :
  sep <> "" -> contains sep s = false -> split sep s = [s].
Proof.
  intros Hsep H. rewrite split_unfold by exact Hsep.
  rewrite contains_cut in H. now destruct (cut sep s) as [[a b]|].
Qed.

(** The equation of [split] at one character. *)
Lemma split_cons (c d : ascii) (s : string) :
  split (String c "") (String d s)
  = if Ascii.eqb c d then "" :: split (String c "") s
    else match split (String c "") s with
         | p :: ps => String d p :: ps
         | [] => [String d ""]
         end.
Proof.
  rewrite (split_unfold _ (String d s)) by apply one_nonempty.
  cbn [cut]. rewrite startswith_one.
  destruct (Ascii.eqb c d); [reflexivity|].
  rewrite (split_unfold _ s) by apply one_nonempty.
  now destruct (cut (String c "") s) as [[a b]|].
Qed.

Lemma split_not_nil (c : ascii) (s : string) : split (String c "") s <> [].
Proof.
  rewrite split_unfold by apply one_nonempty.
  now destruct (cut (String c "") s) as [[a b]|].
Qed.

Lemma split_pieces_clean (c : ascii) (s : string) :
  Forall (fun p => contains (String c "") p = false) (split (String c "") s).
Proof.
  induction s as [|d s IH].
  - repeat constructor.
  - rewrite split_cons. destruct (Ascii.eqb c d) eqn:E.
    + constructor; [reflexivity | exact IH].
    + destruct (split (String c "") s) as [|p ps].
      * repeat constructor. now rewrite contains_one, E.
      * inversion IH as [|? ? Hp Hps]; subst. constructor; [|exact Hps].
        now rewrite contains_one, E, Hp.
Qed.

(** Joining the pieces gives the text back. *)
Lemma join_split (c : ascii) (s : string) :
  join (String c "") (split (String c "") s) = s.
Proof.
  induction s as [|d s IH]; [reflexivity|].
  rewrite split_cons. destruct (Ascii.eqb_spec c d) as [<-|N].
  - pose proof (split_not_nil c s) as NN.
    destruct (split (String c "") s) as [|p ps]; [congruence|].
    cbn [join]. cbn [join] in IH. simpl String.append.
    f_equal. exact IH.
  - pose proof (split_not_nil c s) as NN.
    destruct (split (String c "") s) as [|p ps]; [congruence|].
    destruct ps as [|q qs]; cbn [join] in *; simpl String.append;
      f_equal; exact IH.
Qed.

Lemma split_app (c : ascii) (a b : string) :
  split (String c "") (a +:+ String c b)
  = (split (String c "") a ++ split (String c "") b)%list.
Proof.
  induction a as [|d a IH]; simpl String.append.
  - rewrite split_cons, Ascii.eqb_refl. reflexivity.
  - rewrite !(split_cons c d). destruct (Ascii.eqb c d).
    + now rewrite IH.
    + rewrite IH. pose proof (split_not_nil c a) as NN.
      now destruct (split (String c "") a) as [|p ps].
Qed.

Lemma last_occurrence (c : ascii) (s : string) :
  contains (String c "") s = true ->
  exists stem ext,
    s = stem +:+ String c ext /\ contains (String c "") ext = false.
Proof.
  induction s as [|d s IH]; [discriminate|].
  rewrite contains_one. intros H.
  destruct (contains (String c "") s) eqn:C.
  - destruct (IH eq_refl) as (stem & ext & -> & E).
    now exists (String d stem), ext.
  - rewrite orb_false_r in H. apply Ascii.eqb_eq in H. subst d.
    now exists "", s.
Qed.

(** [rsplit] with one cut undoes an append at the last separator. *)
Lemma rsplit1_app (c : ascii) (stem ext : string) :
  contains (String c "") ext = false ->
  rsplit1 (String c "") (stem +:+ String c ext) = [stem; ext].
Proof.
  intros E. unfold rsplit1.
  rewrite split_app, (split_clean _ ext (one_nonempty c) E).
  rewrite List.rev_app_distr. cbn [rev List.app].
  pose proof (split_not_nil c stem) as NN.
  pose proof (join_split c stem) as J.
  destruct (rev (split (String c "") stem)) as [|x xs] eqn:R.
  - apply (f_equal (@rev string)) in R. rewrite List.rev_involutive in R.
    cbn in R. congruence.
  - rewrite <- R, List.rev_involutive, J. reflexivity.
Qed.

Lemma last_split_app (c : ascii) (stem ext d : string) :
  contains (String c "") ext = false ->
  List.last (split (String c "") (stem +:+ String c ext)) d = ext.
Proof.
  intros E. rewrite split_app, (split_clean _ ext (one_nonempty c) E).
  apply List.last_last.
Qed.

Lemma split_prefix_clean (c : ascii) (a s : string) :
  contains (String c "") a = false ->
  split (String c "") (a +:+ s)
  = match split (String c "") s with
    | p :: ps => (a +:+ p) :: ps
    | [] => [a +:+ s]
    end.
Proof.
  induction a as [|d a IH]; intros H; simpl String.append.
  - pose proof (split_not_nil c s). now destruct (split (String c "") s).
  - rewrite contains_one in H. apply orb_false_elim in H as [N H].
    rewrite split_cons, N, (IH H).
    pose proof (split_not_nil c s). now destruct (split (String c "") s).
Qed.

End SplitChar.

(** ** File names and their extensions *)

Section Extensions.
Import Py PyFacts SplitChar.

#[local] Arguments String.append !s1 s2 : simpl nomatch.

Lemma lower_char_idem (c : ascii) : lower_char (lower_char c) = lower_char c.
Proof. destruct c as [[] [] [] [] [] [] [] []]; reflexivity. Qed.

Lemma lower_char_dot (c : ascii) :
  Ascii.eqb "." (lower_char c) = Ascii.eqb "." c.
Proof. destruct c as [[] [] [] [] [] [] [] []]; reflexivity. Qed.

Lemma lower_idem (s : string) : lower (lower s) = lower s.
Proof.
  induction s as [|c s IH]; [reflexivity|].
  cbn [lower]. now rewrite lower_char_idem, IH.
Qed.

Lemma lower_app (a b : string) : lower (a +:+ b) = lower a +:+ lower b.
Proof.
  induction a as [|c a IH]; [reflexivity|].
  simpl String.append. cbn [lower]. simpl String.append. now rewrite IH.
Qed.

Lemma contains_dot_lower (s : string) :
  contains "." (lower s) = contains "." s.
Proof.
  induction s as [|c s IH]; [reflexivity|].
  cbn [lower]. now rewrite !contains_one, lower_char_dot, IH.
Qed.

Lemma validate_dotted (stem ext : string) (allowed : list string) :
  contains "." ext = false ->
  Utils.validate_file_extension (stem +:+ String "." ext) allowed
  = existsb (String.eqb (lower ext)) allowed.
Proof.
  intros E. unfold Utils.validate_file_extension.
  rewrite (rsplit1_app "." stem ext E).
  change (stem +:+ String "." ext) with (stem +:+ "." +:+ ext).
  now rewrite contains_occurrence.
Qed.

(** X13.  [validate_file_extension] accepts exactly the names that end in a
    dot and an extension without dot whose lower-case form is allowed.
    A name without dot is refused. *)
Theorem validate_file_extension_spec
    (filename : string) (allowed_extensions : list string) :
  Utils.validate_file_extension filename allowed_extensions = true
  <-> exists stem ext,
        filename = stem +:+ "." +:+ ext
        /\ Py.contains "." ext = false
        /\ In (Py.lower ext) allowed_extensions.
Proof.
  split.
  - intros H. pose proof H as H0. unfold Utils.validate_file_extension in H0.
    apply andb_prop in H0 as [C _].
    destruct (last_occurrence "." filename C) as (stem & ext & -> & E).
    exists stem, ext. split; [reflexivity|]. split; [exact E|].
    rewrite (validate_dotted stem ext _ E) in H.
    apply existsb_exists in H as (x & Hx & Hb).
    apply String.eqb_eq in Hb. now subst x.
  - intros (stem & ext & -> & E & Hin).
    change (stem +:+ "." +:+ ext) with (stem +:+ String "." ext).
    rewrite (validate_dotted stem ext _ E).
    apply existsb_exists. exists (lower ext). split; [exact Hin|].
    apply String.eqb_refl.
Qed.

(** X14.  [get_file_extension] never fails; what it returns is in lower case
    and has no dot; it is the lower-case form of what follows the last
    dot, and the empty string for a name without dot. *)
Theorem get_file_extension_spec (filename : string) :
  exists ext,
    Utils.get_file_extension filename = Value ext
    /\ Py.contains "." ext = false
    /\ Py.lower ext = ext
    /\ (Py.contains "." filename = false -> ext = "")
    /\ (forall stem e,
          filename = stem +:+ "." +:+ e -> Py.contains "." e = false ->
          ext = Py.lower e).
Proof.
  unfold Utils.get_file_extension.
  destruct (contains "." filename) eqn:C.
  - destruct (last_occurrence "." filename C) as (stem & e & -> & E).
    rewrite (rsplit1_app "." stem e E). cbn [index nth_error].
    exists (lower e). split; [reflexivity|].
    split; [now rewrite contains_dot_lower|].
    split; [apply lower_idem|]. split; [discriminate|].
    intros stem' e' H E'. f_equal.
    change (stem' +:+ "." +:+ e') with (stem' +:+ String "." e') in H.
    pose proof (last_split_app "." stem e "" E) as L1.
    pose proof (last_split_app "." stem' e' "" E') as L2.
    rewrite H in L1. congruence.
  - exists "". repeat split.
    intros stem e -> _.
    now rewrite contains_occurrence in C.
Qed.

Lemma extension_of_upload_path (stem ext : string) :
  contains "." ext = false ->
  List.last
    (split "." (lower (path_join UPLOAD_FOLDER (stem +:+ String "." ext))))
    ""
  = lower ext.
Proof.
  intros E.
  assert (E' : contains "." (lower ext) = false)
    by now rewrite contains_dot_lower.
  unfold path_join.
  destruct (startswith "/" (stem +:+ String "." ext)).
  - rewrite lower_app. cbn [lower].
    change (lower_char ".") with "."%char.
    now apply last_split_app.
  - change ((String.length UPLOAD_FOLDER =? 0)%nat
            || endswith_char "/" UPLOAD_FOLDER) with false.
    cbv iota. rewrite <- !app_assoc, lower_app. cbn [lower].
    change (lower_char ".") with "."%char.
    now apply last_split_app.
Qed.

End Extensions.

Lemma upload_after_save (w : world) (f doc_name : string) (s : simplifier) :
  let filename := secure_filename w f in
  let filepath := Py.path_join UPLOAD_FOLDER filename in
  let name := if truthy (Some doc_name) then doc_name else filename in
  f <> "" -> allowed_file f = true -> file_save w filepath = Value tt ->
  snd (upload_document w (Some f) doc_name s)
  = snd (load_document w filepath (Some name) s).
Proof.
  intros filename filepath name Hf Ha Hs. apply String.eqb_neq in Hf.
  unfold upload_document, guarded, try_except, bind, lift.
  rewrite Hf, Ha. cbn [negb]. fold filename. fold filepath. rewrite Hs.
  fold name.
  destruct (load_document w filepath (Some name) s) as [[t|e] s'];
    [|reflexivity].
  destruct (Py.contains "Error" t); reflexivity.
Qed.

Lemma load_with_reader_stores (w : world) (reader : string -> M string)
    (file_path : string) (doc_name : option string) (s : simplifier) :
  (exists t, reader file_path s = (Value t, s)) ->
  exists t,
    load_with w reader file_path doc_name s
    = (Value t,
       snd (store_document (stored_name file_path doc_name)
              {| text := t; path := file_path; loaded_at := clock w |} s)).
Proof.
  intros [t H]. exists t. now apply load_with_stores.
Qed.

(** X5.  An accepted file whose name [secure_filename] leaves as it is gets
    stored: whatever the reader made of it, text or error text, is the
    text of the document under the name of the upload. *)
Theorem accepted_upload_is_stored
    (w : world) (f doc_name : string) (s : simplifier) :
  let filepath := Py.path_join UPLOAD_FOLDER f in
  let name := if truthy (Some doc_name) then doc_name else f in
  f <> "" ->
  allowed_file f = true ->
  secure_filename w f = f ->
  file_save w filepath = Value tt ->
  exists t,
    fst (load_document w filepath (Some name) s) = Value t
    /\ loaded_documents (snd (upload_document w (Some f) doc_name s))
       !! name
       = Some {| text := t; path := filepath; loaded_at := clock w |}.
Proof.
  intros filepath name Hf Ha Hsec Hs.
  pose proof (upload_after_save w f doc_name s) as U. cbv zeta in U.
  rewrite Hsec in U. fold filepath name in U. rewrite (U Hf Ha Hs).
  assert (Hname : stored_name filepath (Some name) = name).
  { unfold name, stored_name.
    destruct doc_name as [|c n]; cbn [truthy]; [|reflexivity].
    destruct f; [congruence | reflexivity]. }
  assert (L : exists t,
             load_document w filepath (Some name) s
             = (Value t,
                snd (store_document (stored_name filepath (Some name))
                       {| text := t; path := filepath;
                          loaded_at := clock w |} s))).
  { pose proof Ha as Ha0. unfold allowed_file in Ha0.
    apply andb_prop in Ha0 as [C _].
    destruct (SplitChar.last_occurrence "." f C) as (stem & ext & Ef & E).
    change (allowed_file f)
      with (Utils.validate_file_extension f ALLOWED_EXTENSIONS) in Ha.
    rewrite Ef, (validate_dotted stem ext _ E) in Ha.
    unfold load_document, filepath. rewrite Ef.
    rewrite (extension_of_upload_path stem ext E).
    unfold ALLOWED_EXTENSIONS in Ha. cbn [existsb] in Ha.
    rewrite orb_false_r in Ha.
    rewrite !(String.eqb_sym (Py.lower ext)) in Ha.
    rewrite !(String.eqb_sym (Py.lower ext)).
    destruct (String.eqb "pdf" (Py.lower ext)).
    { apply load_with_reader_stores.
      unfold read_pdf, try_except, bind, lift, ret.
      destruct (pdf_pages w _); eexists; reflexivity. }
    destruct (String.eqb "docx" (Py.lower ext)).
    { apply load_with_reader_stores.
      unfold read_docx, try_except, bind, lift, ret.
      destruct (docx_paragraphs w _); eexists; reflexivity. }
    destruct (String.eqb "txt" (Py.lower ext)); [|discriminate].
    apply load_with_reader_stores.
    unfold read_txt, try_except, lift, ret.
    destruct (utf8_file w _); eexists; reflexivity. }
  destruct L as [t L]. exists t. rewrite L, Hname.
  cbn [fst snd store_document loaded_documents].
  split; [reflexivity | apply lookup_insert_eq].
Qed.

Lemma accepted_upload_is_stored_witness :
  exists t,
    fst (load_document Sample.world "frontend/static/uploads/Lease.PDF"
           (Some "Lease.PDF") (new_simplifier Sample.down))
    = Value t
    /\ loaded_documents
         (snd (upload_document Sample.world (Some "Lease.PDF") ""
                 (new_simplifier Sample.down)))
       !! "Lease.PDF"
       = Some {| text := t; path := "frontend/static/uploads/Lease.PDF";
                 loaded_at := "2024-05-01 09:30:00" |}.
Proof.
  assert (N : "Lease.PDF" <> "") by discriminate.
  exact (accepted_upload_is_stored Sample.world "Lease.PDF" ""
           (new_simplifier Sample.down) N eq_refl eq_refl eq_refl).
Defined.

(** ** Export *)

Section ExportFacts.
Import Py PyFacts SplitChar.

#[local] Arguments String.append !s1 s2 : simpl nomatch.

Variable pr : printer.

Lemma contains_one_app (c : ascii) (a b : string) :
  contains (String c "") (a +:+ b)
  = contains (String c "") a || contains (String c "") b.
Proof.
  induction a as [|d a IH]; simpl String.append; [reflexivity|].
  now rewrite !contains_one, IH, orb_assoc.
Qed.

Lemma no_slash_not_absolute (f : string) :
  contains "/" f = false -> startswith "/" f = false.
Proof.
  destruct f as [|d f]; [reflexivity|].
  rewrite contains_one, startswith_one. now intros [H _]%orb_false_elim.
Qed.

Lemma join_outputs (f : string) :
  startswith "/" f = false -> path_join "outputs" f = "outputs/" +:+ f.
Proof. intros H. unfold path_join. now rewrite H. Qed.

Lemma effective_name_nonempty (filename : option string) :
  match filename with
  | Some (String c n) => String c n
  | _ => "simplified_legal_doc_" +:+ file_stamp pr +:+ ".pdf"
  end <> "".
Proof. destruct filename as [[|c n]|]; discriminate. Qed.

Lemma pdf_target_not_error (filename : option string) :
  startswith "Error" (pdf_target pr filename) = false.
Proof.
  unfold pdf_target.
  pose proof (effective_name_nonempty filename) as NE.
  destruct (match filename with
            | Some (String c n) => String c n
            | _ => "simplified_legal_doc_" +:+ file_stamp pr +:+ ".pdf"
            end) as [|d n]; [congruence|].
  destruct (startswith "outputs/" (String d n)) eqn:O; cbn [negb].
  - cbn [startswith] in O |- *. apply andb_prop in O as [O _].
    apply Ascii.eqb_eq in O. now subst d.
  - unfold path_join. destruct (startswith "/" (String d n)) eqn:A.
    + cbn [startswith] in A |- *. apply andb_prop in A as [A _].
      apply Ascii.eqb_eq in A. now subst d.
    + reflexivity.
Qed.

(** X15.  The path that [save_to_pdf] hands to [pdf.output] is the name
    itself when the name is absolute or starts with [outputs/] already,
    and [outputs/] followed by the name for every other name; without a
    name it is [outputs/simplified_legal_doc_] with the time stamp.  The
    name is not kept within the directory: an absolute name points
    where it likes, and a relative one is joined as it is, so a name
    that climbs with [../] leaves [outputs/] again. *)
Theorem export_file_location (f : string) :
  f <> "" ->
  (startswith "/" f = false -> startswith "outputs/" f = false ->
     pdf_target pr (Some f) = "outputs/" +:+ f)
  /\ (startswith "outputs/" f = true -> pdf_target pr (Some f) = f)
  /\ (startswith "/" f = true -> pdf_target pr (Some f) = f)
  /\ pdf_target pr None
     = "outputs/simplified_legal_doc_" +:+ file_stamp pr +:+ ".pdf"
  /\ (forall rest,
        pdf_target pr (Some ("../" +:+ rest)) = "outputs/../" +:+ rest).
Proof.
  intros Hf. destruct f as [|c n]; [congruence|].
  assert (T : pdf_target pr (Some (String c n))
              = if startswith "outputs/" (String c n) then String c n
                else path_join "outputs" (String c n)).
  { unfold pdf_target. now destruct (startswith "outputs/" (String c n)). }
  split; [|split; [|split; [|split]]].
  - intros R O. rewrite T, O. now apply join_outputs.
  - intros O. now rewrite T, O.
  - intros A. rewrite T.
    destruct (startswith "outputs/" (String c n)); [reflexivity|].
    unfold path_join. now rewrite A.
  - reflexivity.
  - intros rest. reflexivity.
Qed.

End ExportFacts.

Lemma export_file_location_witness :
  pdf_target Sample2.printer (Some "report.pdf") = "outputs/report.pdf"
  /\ pdf_target Sample2.printer (Some "outputs/report.pdf")
     = "outputs/report.pdf"
  /\ pdf_target Sample2.printer (Some "/tmp/report.pdf") = "/tmp/report.pdf"
  /\ pdf_target Sample2.printer (Some "../../etc/cron.d/x.pdf")
     = "outputs/../../etc/cron.d/x.pdf".
Proof.
  assert (N1 : "report.pdf" <> "") by discriminate.
  assert (N2 : "/tmp/report.pdf" <> "") by discriminate.
  assert (N3 : "outputs/report.pdf" <> "") by discriminate.
  destruct (export_file_location Sample2.printer "report.pdf" N1)
    as (A & _ & _ & _ & D).
  destruct (export_file_location Sample2.printer "outputs/report.pdf" N3)
    as (_ & B & _).
  destruct (export_file_location Sample2.printer "/tmp/report.pdf" N2)
    as (_ & _ & C & _).
  split; [exact (A eq_refl eq_refl)|].
  split; [exact (B eq_refl)|].
  split; [exact (C eq_refl)|].
  exact (D "../etc/cron.d/x.pdf").
Defined.


Section ExportRoute.
Import Py PyFacts SplitChar.

#[local] Arguments String.append !s1 s2 : simpl nomatch.

Variable pr : printer.

Lemma basename_clean (p : string) : contains "/" (basename p) = false.
Proof.
  unfold basename. pose proof (split_pieces_clean "/" p) as F.
  pose proof (split_not_nil "/" p) as NN.
  induction (split "/" p) as [|x xs IH]; [congruence|].
  inversion F as [|? ? Hx Hxs]; subst.
  destruct xs as [|y ys]; [exact Hx|].
  change (List.last (x :: y :: ys) "") with (List.last (y :: ys) "").
  apply IH; [exact Hxs | discriminate].
Qed.

Lemma save_pdf_outcome
    (filename : option string) (s : simplifier) (c : ascii) (a : string) :
  current_analysis s = Some (String c a) ->
  makedirs pr "outputs" = Value tt ->
  let given :=
    match filename with
    | Some f =>
        if truthy filename && negb (PyMore.endswith ".pdf" f)
        then Some (f +:+ ".pdf") else filename
    | None => None
    end in
  let target := pdf_target pr given in
  save_pdf pr filename s
  = match fpdf pr (pdf_calls pr (String c a)) target with
    | Value _ => export_saved (basename target)
    | Raise e => export_error ("Error saving PDF: " +:+ e) 500
    end.
Proof.
  intros H M given target.
  unfold save_pdf. rewrite H. fold given.
  unfold save_to_pdf. rewrite M. fold target.
  destruct (fpdf pr (pdf_calls pr (String c a)) target).
  - unfold target. now rewrite pdf_target_not_error.
  - reflexivity.
Qed.

(** X16.  With an analysis to export, the export route reports a failure
    exactly when [FPDF] failed, and then with the text that
    [save_to_pdf] made of the failure; otherwise it answers with the
    last component of the path written, which holds no slash. *)
Theorem export_reports_failure_exactly
    (filename : option string) (s : simplifier) (c : ascii) (a : string) :
  current_analysis s = Some (String c a) ->
  makedirs pr "outputs" = Value tt ->
  let given :=
    match filename with
    | Some f =>
        if truthy filename && negb (PyMore.endswith ".pdf" f)
        then Some (f +:+ ".pdf") else filename
    | None => None
    end in
  let target := pdf_target pr given in
  save_pdf pr filename s
  = match fpdf pr (pdf_calls pr (String c a)) target with
    | Value _ => export_saved (basename target)
    | Raise e => export_error ("Error saving PDF: " +:+ e) 500
    end
  /\ contains "/" (basename target) = false.
Proof.
  intros H M given target. split; [|apply basename_clean].
  exact (save_pdf_outcome filename s c a H M).
Qed.

Lemma starts_with_outputs_has_slash (n : string) :
  contains "/" n = false -> startswith "outputs/" n = false.
Proof.
  intros H. destruct (startswith "outputs/" n) eqn:O; [|reflexivity].
  apply startswith_inv in O. rewrite O in H.
  rewrite contains_one_app in H. discriminate.
Qed.

(** X17.  For a name without slash, with [.pdf] added when it was
    missing, [save_to_pdf] hands the relative path [outputs/name] to
    [pdf.output] and returns it, the export route answers with the
    name, and the download route, given that name, hands the same
    relative path to [send_file] when [os.path.exists] finds it.  The
    statement compares the two paths as strings and no more. *)
Theorem export_and_download_name_the_same_path
    (f : string) (s : simplifier) (c : ascii) (a : string) :
  let name := if PyMore.endswith ".pdf" f then f else f +:+ ".pdf" in
  current_analysis s = Some (String c a) ->
  makedirs pr "outputs" = Value tt ->
  f <> "" ->
  contains "/" f = false ->
  fpdf pr (pdf_calls pr (String c a)) ("outputs/" +:+ name) = Value tt ->
  path_exists pr ("outputs/" +:+ name) = true ->
  save_to_pdf pr (String c a) (Some name) = Value ("outputs/" +:+ name)
  /\ save_pdf pr (Some f) s = export_saved name
  /\ download_path pr name = "outputs/" +:+ name.
Proof.
  intros name H M Hf Hs W X.
  assert (Hn : contains "/" name = false).
  { unfold name. destruct (PyMore.endswith ".pdf" f); [exact Hs|].
    now rewrite contains_one_app, Hs. }
  assert (Hne : exists d n, name = String d n).
  { unfold name. destruct f as [|d n]; [congruence|].
    destruct (PyMore.endswith ".pdf" (String d n)); eexists; eexists;
      reflexivity. }
  assert (G : match Some f with
              | Some f0 =>
                  if truthy (Some f) && negb (PyMore.endswith ".pdf" f0)
                  then Some (f0 +:+ ".pdf") else Some f
              | None => None
              end = Some name).
  { unfold name. destruct f as [|d n]; [congruence|]. cbn [truthy andb].
    now destruct (PyMore.endswith ".pdf" (String d n)). }
  assert (T : pdf_target pr (Some name) = "outputs/" +:+ name).
  { destruct Hne as (d & n & E). unfold pdf_target. rewrite E, <- E.
    rewrite (starts_with_outputs_has_slash name Hn). cbn [negb].
    apply join_outputs. now apply no_slash_not_absolute. }
  split; [|split].
  - unfold save_to_pdf. now rewrite M, T, W.
  - pose proof (save_pdf_outcome (Some f) s c a H M) as E. cbv zeta in E.
    rewrite E, G, T, W. f_equal.
    change ("outputs/" +:+ name) with ("outputs" +:+ String "/" name).
    unfold basename. now apply last_split_app.
  - unfold download_path, OUTPUT_FOLDER.
    rewrite (join_outputs name (no_slash_not_absolute name Hn)).
    now rewrite X.
Qed.

End ExportRoute.

Lemma export_reports_failure_exactly_witness :
  save_pdf Sample2.printer (Some "locked")
    (snd (set_analysis "A lease." (new_simplifier Sample.down)))
  = export_error "Error saving PDF: Permission denied" 500.
Proof.
  exact (proj1 (export_reports_failure_exactly Sample2.printer
                  (Some "locked")
                  (snd (set_analysis "A lease."
                          (new_simplifier Sample.down)))
                  "A" " lease." eq_refl eq_refl)).
Defined.

Lemma export_and_download_name_the_same_path_witness :
  save_to_pdf Sample2.printer "A lease." (Some "report.pdf")
  = Value "outputs/report.pdf"
  /\ save_pdf Sample2.printer (Some "report")
       (snd (set_analysis "A lease." (new_simplifier Sample.down)))
     = export_saved "report.pdf"
  /\ download_path Sample2.printer "report.pdf" = "outputs/report.pdf".
Proof.
  assert (N : "report" <> "") by discriminate.
  exact (export_and_download_name_the_same_path Sample2.printer "report"
           (snd (set_analysis "A lease." (new_simplifier Sample.down)))
           "A" " lease." eq_refl eq_refl N eq_refl eq_refl eq_refl).
Defined.

(** ** [utils.py]: texts *)

Section TextUtils.
Import Py PyFacts SplitChar.

#[local] Arguments String.append !s1 s2 : simpl nomatch.

Lemma slice_to_min (n : nat) (t : string) :
  String.length (slice_to n t) = Nat.min n (String.length t).
Proof.
  revert t. induction n as [|n IH]; intros t; [reflexivity|].
  destruct t as [|c t]; [reflexivity|]. cbn. now rewrite IH.
Qed.

(** X18.  [truncate_text] keeps within [max_length] exactly when the text or
    the suffix fits into it: a text that is cut ends in the whole
    suffix, so a suffix longer than the limit makes the result longer
    than the limit.  When the suffix fits, a text that is cut comes out
    at [max_length] characters. *)
Theorem truncate_text_length
    (text : string) (max_length : Z) (suffix : string) :
  let result := Utils.truncate_text text max_length suffix in
  ((Z.of_nat (String.length result) <= max_length)%Z
   <-> (Z.of_nat (String.length text) <= max_length)%Z
       \/ (Z.of_nat (String.length suffix) <= max_length)%Z)
  /\ ((Z.of_nat (String.length text) <= max_length)%Z -> result = text)
  /\ ((max_length < Z.of_nat (String.length text))%Z ->
      (Z.of_nat (String.length suffix) <= max_length)%Z ->
      Z.of_nat (String.length result) = max_length
      /\ result
         = slice_to
             (Z.to_nat (max_length - Z.of_nat (String.length suffix))) text
           +:+ suffix).
Proof.
  intros result. unfold result, Utils.truncate_text, PyMore.slice_to_int.
  destruct (Z.leb_spec (Z.of_nat (String.length text)) max_length) as [L|L].
  - split; [|split]; [tauto | reflexivity | lia].
  - destruct (Z.leb_spec 0 (max_length - Z.of_nat (String.length suffix)))
      as [K|K]; rewrite !app_length, !slice_to_min.
    + split; [|split]; [lia | lia |].
      intros _ _. split; [lia | reflexivity].
    + split; [|split]; lia.
Qed.

Lemma truncate_text_length_witness :
  Utils.truncate_text "Tenant shall pay $500 monthly." 10 "..."
  = "Tenant ..."
  /\ String.length (Utils.truncate_text "Tenant shall pay." 2 "...") = 19.
Proof.
  destruct (truncate_text_length "Tenant shall pay $500 monthly." 10 "...")
    as (_ & _ & A).
  split; [|reflexivity].
  exact (proj2 (A ltac:(cbn; lia) ltac:(cbn; lia))).
Defined.

Lemma Forall_firstn {A} (P : A -> Prop) (n : nat) (xs : list A) :
  Forall P xs -> Forall P (firstn n xs).
Proof.
  intros F. revert n. induction F as [|x xs Hx F IH]; intros [|n];
    cbn [firstn]; constructor; auto.
Qed.

(** X19.  Every phrase that [extract_key_phrases] returns is longer than 20
    characters, has no blank at either end and no full stop; it returns
    at most [num_phrases] of them when that number is not negative. *)
Theorem key_phrases_are_trimmed_sentences (text : string) (num_phrases : Z) :
  let phrases := Utils.extract_key_phrases text num_phrases in
  Forall (fun p => 20 < String.length p
                   /\ strip p = p
                   /\ contains "." p = false) phrases
  /\ ((0 <= num_phrases)%Z ->
      (Z.of_nat (List.length phrases) <= num_phrases)%Z).
Proof.
  intros phrases. unfold phrases, Utils.extract_key_phrases.
  split.
  - assert (F : Forall (fun p => 20 < String.length p
                                 /\ strip p = p
                                 /\ contains "." p = false)
                  (map strip
                     (List.filter
                        (fun s => (20 <? String.length (strip s))%nat)
                        (split "." text)))).
    { pose proof (split_pieces_clean "." text) as C.
      induction C as [|x xs Hx C IH]; cbn [List.filter map]; [constructor|].
      destruct (Nat.ltb_spec 20 (String.length (strip x))) as [L|L];
        [|exact IH].
      cbn [map]. constructor; [|exact IH].
      split; [exact L|]. split; [apply PyFacts2.strip_idem|].
      now apply contains_strip. }
    unfold PyMore.list_slice_to_int.
    destruct (0 <=? num_phrases)%Z; now apply Forall_firstn.
  - intros H. unfold PyMore.list_slice_to_int.
    apply Z.leb_le in H. rewrite H.
    pose proof (List.firstn_le_length (Z.to_nat num_phrases)
                  (map strip
                     (List.filter
                        (fun s => (20 <? String.length (strip s))%nat)
                        (split "." text)))).
    apply Z.leb_le in H. lia.
Qed.

Lemma key_phrases_are_trimmed_sentences_witness :
  Utils.extract_key_phrases
    "Tenant shall pay $500 monthly. Fine.  Landlord may enter at any time."
    1
  = ["Tenant shall pay $500 monthly"].
Proof.
  pose proof (key_phrases_are_trimmed_sentences
    "Tenant shall pay $500 monthly. Fine.  Landlord may enter at any time."
    1) as [_ B].
  specialize (B ltac:(lia)). reflexivity.
Defined.

Lemma kept_is_no_separator (c : ascii) :
  (PyMore.is_word c || is_space c || Ascii.eqb c "." || Ascii.eqb c "-")
  = true ->
  Ascii.eqb "/" c = false /\ Ascii.eqb "\" c = false.
Proof.
  destruct c as [[] [] [] [] [] [] [] []]; intros H;
    (split; reflexivity) || discriminate H.
Qed.

Lemma underscore_is_kept :
  PyMore.is_word "_" = true /\ Ascii.eqb "_" " " = false.
Proof. split; reflexivity. Qed.

(** X20.  [sanitize_filename] returns a name without slash, backslash or
    space, whatever it is given, and leaves a name it returned as it
    is. *)
Theorem sanitize_filename_is_flat (filename : string) :
  let name := Utils.sanitize_filename filename in
  contains "/" name = false
  /\ contains "\" name = false
  /\ contains " " name = false
  /\ Utils.sanitize_filename name = name.
Proof.
  intros name. unfold name, Utils.sanitize_filename.
  induction filename as [|c f IH]; [repeat split|].
  destruct IH as (I1 & I2 & I3 & I4).
  cbn [PyMore.keep_chars].
  destruct (PyMore.is_word c || is_space c || Ascii.eqb c "."
            || Ascii.eqb c "-") eqn:K; [|repeat split; assumption].
  destruct (kept_is_no_separator c K) as [S1 S2].
  cbn [PyMore.replace_char]. rewrite !contains_one.
  destruct (Ascii.eqb_spec c " ") as [->|N].
  - rewrite I1, I2, I3. repeat split.
    cbn [PyMore.keep_chars PyMore.replace_char].
    change (PyMore.is_word "_" || is_space "_" || Ascii.eqb "_" "."
            || Ascii.eqb "_" "-") with true.
    cbv iota. cbn [PyMore.replace_char].
    change (Ascii.eqb "_" " ") with false. cbv iota. now rewrite I4.
  - rewrite S1, S2, I1, I2, I3.
    assert (N' : Ascii.eqb " " c = false)
      by (apply Ascii.eqb_neq; congruence).
    rewrite N'. repeat split.
    cbn [PyMore.keep_chars]. rewrite K. cbn [PyMore.replace_char].
    apply Ascii.eqb_neq in N. rewrite N. now rewrite I4.
Qed.

End TextUtils.

(** ** [utils.py]: words and blanks *)

Section Words.
Import Py PyFacts.

#[local] Arguments String.append !s1 s2 : simpl nomatch.

Lemma split_blank_cons (c : ascii) (s : string) :
  is_space c = false ->
  exists word rest,
    PyMore.split_blank (String c s) = String c word :: rest.
Proof.
  intros Hc. cbn [PyMore.split_blank]. rewrite Hc.
  destruct s as [|d s]; [now exists "", []|].
  destruct (is_space d); [now eexists; eexists|].
  destruct (PyMore.split_blank (String d s)) as [|w ws];
    eexists; eexists; reflexivity.
Qed.

Lemma split_blank_app (a b : string) (c : ascii) :
  is_space c = true ->
  PyMore.split_blank (a +:+ String c b)
  = (PyMore.split_blank a ++ PyMore.split_blank b)%list.
Proof.
  intros Hc. induction a as [|d a IH]; simpl String.append.
  - cbn [PyMore.split_blank]. now rewrite Hc.
  - cbn [PyMore.split_blank]. destruct (is_space d) eqn:Hd; [exact IH|].
    destruct a as [|e a]; simpl String.append.
    + cbv beta iota. rewrite Hc. cbn [PyMore.split_blank]. now rewrite Hc.
    + simpl String.append in IH. cbv beta iota.
      destruct (is_space e) eqn:He.
      * now rewrite IH.
      * rewrite IH.
        destruct (split_blank_cons e a He) as (w & ws & ->). reflexivity.
Qed.

(** X21.  Words are counted piece by piece: the count of two texts joined by
    a blank is the sum of their counts; blanks alone count for nothing,
    at either end or on their own. *)
Theorem count_words_adds_up (a b : string) (c : ascii) :
  is_space c = true ->
  Utils.count_words (a +:+ String c b)
  = Utils.count_words a + Utils.count_words b
  /\ Utils.count_words (String c a) = Utils.count_words a
  /\ Utils.count_words (a +:+ String c "") = Utils.count_words a
  /\ Utils.count_words (String c "") = 0.
Proof.
  intros Hc. unfold Utils.count_words.
  rewrite !(split_blank_app _ _ c Hc), !List.length_app.
  cbn [PyMore.split_blank List.length]. rewrite Hc.
  repeat split; lia.
Qed.

Lemma count_words_adds_up_witness :
  Utils.count_words "Tenant shall pay  $500 monthly." = 3 + 2.
Proof.
  exact (proj1 (count_words_adds_up "Tenant shall pay" " $500 monthly."
                  " " eq_refl)).
Defined.

Lemma squeeze_blanks_spaced (s : string) :
  single_spaced (PyMore.squeeze_blanks s) = true.
Proof.
  assert (H : forall s,
             single_spaced (PyMore.squeeze_blanks s) = true
             /\ (match s with
                 | "" => True
                 | String c _ =>
                     is_space c = false ->
                     exists r, PyMore.squeeze_blanks s = String c r
                 end)).
  { clear s. induction s as [|c s [IH1 IH2]]; [split; [reflexivity|exact I]|].
    cbn [PyMore.squeeze_blanks]. destruct (is_space c) eqn:Hc.
    - split; [|discriminate].
      destruct s as [|d s]; [reflexivity|].
      destruct (is_space d) eqn:Hd; [exact IH1|].
      destruct (IH2 eq_refl) as [r E].
      cbn [single_spaced]. rewrite IH1, E, Hd. reflexivity.
    - split; [|intros _; eexists; reflexivity].
      cbn [single_spaced]. now rewrite Hc, IH1. }
  apply H.
Qed.

Lemma spaced_no_newline (s : string) :
  single_spaced s = true -> PyMore.squeeze_newlines s = s.
Proof.
  induction s as [|c s IH]; [reflexivity|].
  cbn [single_spaced]. intros [H1 H2]%andb_prop.
  cbn [PyMore.squeeze_newlines].
  destruct (Ascii.eqb_spec c "010") as [->|N].
  - cbn in H1. discriminate.
  - now rewrite (IH H2).
Qed.

Lemma spaced_tail (c : ascii) (s : string) :
  single_spaced (String c s) = true -> single_spaced s = true.
Proof. cbn [single_spaced]. now intros [_ H]%andb_prop. Qed.

Lemma spaced_lstrip (s : string) :
  single_spaced s = true -> single_spaced (lstrip s) = true.
Proof.
  induction s as [|c s IH]; [reflexivity|]. intros H.
  cbn [lstrip]. destruct (is_space c); [|exact H].
  apply IH. now apply (spaced_tail c).
Qed.

Lemma spaced_rstrip (s : string) :
  single_spaced s = true -> single_spaced (rstrip s) = true.
Proof.
  induction s as [|c s IH]; [reflexivity|]. intros H.
  pose proof (IH (spaced_tail c s H)) as T.
  cbn [rstrip]. cbn [single_spaced] in H. apply andb_prop in H as [H1 H2].
  destruct (rstrip s) as [|d r] eqn:E.
  - destruct (is_space c) eqn:Hc; [reflexivity|].
    cbn [single_spaced]. now rewrite Hc.
  - cbn [single_spaced]. cbn [single_spaced] in T. rewrite T, andb_true_r.
    destruct (is_space c) eqn:Hc; [|reflexivity].
    cbn [negb orb] in H1 |- *.
    apply andb_prop in H1 as [H1 H3]. rewrite H1. cbn [andb].
    destruct (rstrip_prefix s) as [ws W]. rewrite E in W.
    rewrite W in H3. exact H3.
Qed.

Lemma spaced_blank_is_space (s : string) (c : ascii) :
  single_spaced s = true ->
  In c (list_ascii_of_string s) -> is_space c = true -> c = " "%char.
Proof.
  induction s as [|d s IH]; [contradiction|].
  intros H [->|Hin] Hc.
  - cbn [single_spaced] in H. apply andb_prop in H as [H _].
    rewrite Hc in H. cbn [negb orb] in H.
    apply andb_prop in H as [H _]. now apply Ascii.eqb_eq in H.
  - apply IH; [now apply (spaced_tail d) | exact Hin | exact Hc].
Qed.

Lemma spaced_no_double (s : string) :
  single_spaced s = true -> contains "  " s = false.
Proof.
  induction s as [|c s IH]; [reflexivity|]. intros H.
  cbn [contains]. rewrite (IH (spaced_tail c s H)), orb_false_r.
  cbn [single_spaced] in H. apply andb_prop in H as [H _].
  cbn [startswith]. destruct (Ascii.eqb_spec " " c) as [<-|N]; [|reflexivity].
  cbn in H. destruct s as [|d s]; [reflexivity|].
  destruct (Ascii.eqb_spec " " d) as [<-|N']; [discriminate H | reflexivity].
Qed.

(** X22.  What [clean_text] returns has no blank at either end, no blank
    other than the plain space, and no two spaces in a row; cleaning it
    again changes nothing. *)
Theorem clean_text_is_tidy (text : string) :
  let clean := Utils.clean_text text in
  strip clean = clean
  /\ (forall c, In c (list_ascii_of_string clean) ->
                is_space c = true -> c = " "%char)
  /\ contains "  " clean = false
  /\ Utils.clean_text clean = clean.
Proof.
  intros clean.
  assert (S : single_spaced clean = true).
  { unfold clean, Utils.clean_text, strip.
    rewrite (spaced_no_newline _ (squeeze_blanks_spaced text)).
    apply spaced_rstrip, spaced_lstrip, squeeze_blanks_spaced. }
  assert (T : strip clean = clean).
  { unfold clean, Utils.clean_text. apply PyFacts2.strip_idem. }
  split; [exact T|].
  split; [intros c; exact (spaced_blank_is_space clean c S)|].
  split; [now apply spaced_no_double|].
  assert (Q : forall s, single_spaced s = true -> PyMore.squeeze_blanks s = s).
  { clear. induction s as [|c s IH]; [reflexivity|]. intros H.
    pose proof (IH (spaced_tail c s H)) as E.
    cbn [single_spaced] in H. apply andb_prop in H as [H _].
    cbn [PyMore.squeeze_blanks]. destruct (is_space c) eqn:Hc.
    - cbn [negb orb] in H. apply andb_prop in H as [H1 H2].
      apply Ascii.eqb_eq in H1. subst c.
      destruct s as [|d s]; [reflexivity|].
      apply negb_true_iff in H2. rewrite H2. now rewrite E.
    - now rewrite E. }
  unfold Utils.clean_text at 1.
  now rewrite (Q clean S), (spaced_no_newline clean S).
Qed.

End Words.

(** ** Routes one after the other *)

Lemma analyze_loaded (n : string) (d : document) (s : simplifier) :
  n <> "" ->
  loaded_documents s !! n = Some d ->
  analyze_document (Some n) s
  = (let analysis :=
       match answer s (simplify_request (text d) None) with
       | Value out => out
       | Raise e => "Error calling API: " +:+ e
       end in
     (Value (ok (analysed analysis)),
      snd (set_analysis analysis
             (after_request (simplify_request (text d) None) s)))).
Proof.
  intros Hn Hd.
  unfold analyze_document, guarded, try_except, bind, documents, ret.
  unfold named_document. destruct n as [|c n]; [congruence|].
  cbn [truthy]. rewrite Hd.
  unfold simplify_legal_text, try_except, create, ret.
  now destruct (answer s _).
Qed.

(** X23.  A document that was uploaded is found by the analyze route: after
    the upload of a well-formed file under a name, analyze on that name
    sends the text of the file to the model and does not answer 404. *)
Theorem uploaded_document_can_be_analyzed
    (w : world) (f doc_name t : string) (s : simplifier) :
  let filename := secure_filename w f in
  let filepath := Py.path_join UPLOAD_FOLDER filename in
  let name := if truthy (Some doc_name) then doc_name else filename in
  let s1 := snd (upload_document w (Some f) doc_name s) in
  f <> "" ->
  allowed_file f = true ->
  file_save w filepath = Value tt ->
  name <> "" ->
  extracted w filepath t ->
  loaded_documents s1 !! name
  = Some {| text := t; path := filepath; loaded_at := clock w |}
  /\ sent (client (snd (analyze_document (Some name) s1)))
     = (sent (client s) ++ [simplify_request t None])%list
  /\ exists analysis,
       fst (analyze_document (Some name) s1) = Value (ok (analysed analysis)).
Proof.
  intros filename filepath name s1 Hf Ha Hs Hn Ht.
  assert (E1 : s1 = snd (store_document name
                          {| text := t; path := filepath;
                             loaded_at := clock w |} s)).
  { unfold s1. pose proof (upload_after_save w f doc_name s) as U.
    cbv zeta in U. fold filename filepath name in U. rewrite (U Hf Ha Hs).
    rewrite (load_document_extracted w filepath (Some name) s t Ht).
    cbn [snd]. f_equal. unfold stored_name.
    destruct name; [congruence | reflexivity]. }
  assert (L : loaded_documents s1 !! name
              = Some {| text := t; path := filepath;
                        loaded_at := clock w |}).
  { rewrite E1. cbn [snd store_document loaded_documents].
    apply lookup_insert_eq. }
  split; [exact L|].
  rewrite (analyze_loaded name _ s1 Hn L). cbv zeta. cbn [fst snd text].
  split; [|eexists; reflexivity].
  rewrite E1. reflexivity.
Qed.

Lemma uploaded_document_can_be_analyzed_witness :
  sent (client
          (snd (analyze_document (Some "lease")
                  (snd (upload_document Sample.world (Some "lease.txt")
                          "lease" (new_simplifier Sample.down))))))
  = [simplify_request "Tenant shall pay $500 monthly." None].
Proof.
  assert (N1 : "lease.txt" <> "") by discriminate.
  assert (N2 : "lease" <> "") by discriminate.
  exact (proj1 (proj2
    (uploaded_document_can_be_analyzed Sample.world "lease.txt" "lease"
       "Tenant shall pay $500 monthly." (new_simplifier Sample.down)
       N1 eq_refl eq_refl N2
       (extracted_txt Sample.world "frontend/static/uploads/lease.txt"
          "Tenant shall pay $500 monthly." eq_refl eq_refl)))).
Defined.

(** X24.  Clearing forgets the conversation and nothing else: whatever was
    said before, the chat after a clearing sends the system message and
    its own question alone, while the documents and the current
    analysis are still there. *)
Theorem cleared_conversation_is_forgotten
    (calls : list (string * option string)) (s : simplifier)
    (user_message : string) (document_context : option string) :
  let s1 := snd (clear_conversation (chats calls s)) in
  let p := Message "user" (chat_prompt user_message document_context) in
  conversation_history s1 = []
  /\ loaded_documents s1 = loaded_documents (chats calls s)
  /\ current_analysis s1 = current_analysis (chats calls s)
  /\ sent (client (snd (chat user_message document_context s1)))
     = (sent (client (chats calls s)) ++ [chat_request [p]])%list.
Proof.
  intros s1 p. repeat split.
  rewrite (chat_outcome s1 user_message document_context). fold p.
  change (conversation_history s1) with (@nil message). cbn [List.app].
  destruct (answer s1 (chat_request [p])); reflexivity.
Qed.

(** X25.  The compare route asks for two names and answers 400 without them;
    for two loaded documents it always answers with success, the
    comparison being the text of the model, or the error text when the
    model call failed, and keeps it as the current analysis. *)
Theorem compare_route_outcomes (s : simplifier) :
  (forall doc2,
      api_compare_documents None doc2 s
      = (Value (error "Two documents required", 400%Z), s)
      /\ api_compare_documents doc2 None s
         = (Value (error "Two documents required", 400%Z), s)
      /\ api_compare_documents (Some "") doc2 s
         = (Value (error "Two documents required", 400%Z), s)
      /\ api_compare_documents doc2 (Some "") s
         = (Value (error "Two documents required", 400%Z), s))
  /\ (forall n1 n2 d1 d2,
      n1 <> "" -> n2 <> "" ->
      loaded_documents s !! n1 = Some d1 ->
      loaded_documents s !! n2 = Some d2 ->
      let r := compare_request n1 (Py.slice_to 3000 (text d1))
                 n2 (Py.slice_to 3000 (text d2)) in
      let comparison :=
        match answer s r with
        | Value out => out
        | Raise e => "Error comparing documents: " +:+ e
        end in
      api_compare_documents (Some n1) (Some n2) s
      = (Value (ok (compared comparison)),
         snd (set_analysis comparison (after_request r s)))).
Proof.
  split.
  - intros doc2. repeat split.
    + now destruct doc2.
    + destruct doc2 as [[|c n]|]; reflexivity.
    + destruct doc2 as [[|c n]|]; reflexivity.
  - intros n1 n2 d1 d2 H1 H2 L1 L2 r comparison.
    unfold api_compare_documents, guarded, try_except, bind, ret.
    destruct n1 as [|c1 n1]; [congruence|].
    destruct n2 as [|c2 n2]; [congruence|]. cbn [truthy andb].
    pose proof (compare_loaded s _ _ d1 d2 L1 L2) as C.
    unfold try_except, create, ret in C. fold r in C.
    unfold comparison. destruct (answer s r); now rewrite C.
Qed.

Lemma compare_route_outcomes_witness :
  fst (api_compare_documents (Some "a.txt") (Some "b.txt") Sample.offline)
  = Value (ok (compared "Error comparing documents: Connection error.")).
Proof.
  destruct (compare_route_outcomes Sample.offline) as [_ B].
  assert (N1 : "a.txt" <> "") by discriminate.
  assert (N2 : "b.txt" <> "") by discriminate.
  now rewrite (B "a.txt" "b.txt" _ _ N1 N2 eq_refl eq_refl).
Defined.

(** ** Further samples *)

Lemma load_document_changes_one_entry_witness :
  loaded_documents
    (snd (load_document Sample.world "x/lease.txt" (Some "lease")
            Sample.library))
  !! "a.txt"
  = loaded_documents Sample.library !! "a.txt".
Proof.
  destruct (load_document_changes_one_entry Sample.world "x/lease.txt"
              (Some "lease") Sample.library) as (_ & _ & _ & F).
  apply F. discriminate.
Defined.

Lemma validate_file_extension_spec_witness :
  Utils.validate_file_extension "archive.tar.GZ" ["gz"; "zip"] = true.
Proof.
  apply (proj2 (validate_file_extension_spec "archive.tar.GZ" ["gz"; "zip"])).
  exists "archive.tar", "GZ". repeat split. now left.
Defined.

Lemma get_file_extension_spec_witness :
  Utils.get_file_extension "archive.tar.GZ" = Value "gz".
Proof.
  destruct (get_file_extension_spec "archive.tar.GZ")
    as (ext & E & _ & _ & _ & F).
  rewrite E. f_equal. exact (F "archive.tar" "GZ" eq_refl eq_refl).
Defined.

Lemma clean_text_is_tidy_witness :
  Py.strip (Utils.clean_text (String "009" " Tenant   shall pay. "))
  = "Tenant shall pay."
  /\ " "%char = " "%char.
Proof.
  destruct (clean_text_is_tidy (String "009" " Tenant   shall pay. "))
    as (A & B & _ & _).
  split; [rewrite A; reflexivity|].
  apply (B " "%char); [|reflexivity].
  do 6 right. left. reflexivity.
Defined.
